(** * Model registry and training orchestration: a shallow embedding

    The development embeds [app/ml/model_manager.py] (the alert family) and
    [app/nutrition/food_ml_model.py] (the food family) and proves the
    properties of their registries, promotion step, bake-off selection and
    prediction services.

    Conventions of the embedding.
    - Python [float]s that are compared or stored (scores, metrics,
      quantities) are finite doubles; each is represented by the rational
      it denotes, so [<] and [>] on them are [Qlt] on the denotations.  A
      float literal that a score is compared with stands for the double it
      rounds to.  The running totals of a prediction are written with the
      exact sum of [Q]; the properties proved use no law of addition, only
      which values are added and in which order.
    - Python [str]s are Stdlib strings restricted to ASCII.
    - The durable state (the JSON registry document, the artifact files,
      the experiment tracker, the relational store) is an explicit world
      threaded through a state-and-exception monad; an exception leaves the
      side effects performed before it in place.
    - scikit-learn, joblib and the clock are outside the repository: what
      they return during one training run is the run's [TrainEnv]. *)

From Stdlib Require Import QArith ZArith String Ascii List Lia Bool.
From stdpp Require Import gmap strings list pretty.

Local Open Scope string_scope.
Local Open Scope list_scope.

(** ** Python runtime *)

Module Py.

Inductive exn : Type :=
| ValueError (msg : string)
| KeyError (key : string)
| TypeError (msg : string)
| ZeroDivisionError
| FileNotFoundError (path : string)
| UnpicklingError (path : string)
| LibraryError (msg : string).

Inductive outcome (A : Type) : Type :=
| Returns (a : A)
| Raises (e : exn).
Arguments Returns {A} a.
Arguments Raises {A} e.

(** Computations over a world [W] that may raise. *)
Definition M (W A : Type) : Type := W -> outcome A * W.

Definition ret {W A} (a : A) : M W A := fun w => (Returns a, w).
Definition raise {W A} (e : exn) : M W A := fun w => (Raises e, w).
Definition bind {W A B} (c : M W A) (k : A -> M W B) : M W B :=
  fun w => match c w with
           | (Returns a, w') => k a w'
           | (Raises e, w') => (Raises e, w')
           end.
Definition get {W} : M W W := fun w => (Returns w, w).
Definition put {W} (w : W) : M W unit := fun _ => (Returns tt, w).
Definition modify {W} (f : W -> W) : M W unit := fun w => (Returns tt, f w).
Definition lift {W A} (o : outcome A) : M W A := fun w => (o, w).

(** Comparison of two doubles through their denotations. *)
Definition Qltb (x y : Q) : bool :=
  (Qnum x * Zpos (Qden y) <? Qnum y * Zpos (Qden x))%Z.

(** [x or d] on an optional number: [None] and [0] are falsy. *)
Definition or_default (x : option Q) (d : Q) : Q :=
  match x with
  | Some v => if Qeq_bool v 0 then d else v
  | None => d
  end.

(** *** [str] methods, on ASCII *)

Definition is_space (c : ascii) : bool :=
  let n := nat_of_ascii c in
  ((9 <=? n) && (n <=? 13) || (28 <=? n) && (n <=? 32))%nat.

Definition lower_char (c : ascii) : ascii :=
  let n := nat_of_ascii c in
  if ((65 <=? n) && (n <=? 90))%nat then ascii_of_nat (n + 32) else c.

Fixpoint map_chars (f : ascii -> ascii) (s : string) : string :=
  match s with
  | EmptyString => EmptyString
  | String c s' => String (f c) (map_chars f s')
  end.

Definition lower (s : string) : string := map_chars lower_char s.

Fixpoint lstrip (s : string) : string :=
  match s with
  | EmptyString => EmptyString
  | String c s' => if is_space c then lstrip s' else s
  end.

Fixpoint rstrip (s : string) : string :=
  match s with
  | EmptyString => EmptyString
  | String c s' =>
      match rstrip s' with
      | EmptyString => if is_space c then EmptyString else String c EmptyString
      | r => String c r
      end
  end.

Definition strip (s : string) : string := rstrip (lstrip s).

(** [s.replace(a, b)] for one-character [a] and [b]. *)
Definition replace_char (a b : ascii) (s : string) : string :=
  map_chars (fun c => if Ascii.eqb c a then b else c) s.

Definition startswith (p s : string) : bool := String.prefix p s.

(** [p in s] *)
Fixpoint contains (p s : string) : bool :=
  String.prefix p s ||
  match s with
  | EmptyString => false
  | String _ s' => contains p s'
  end.

(** [os.path.join(d, f)] for a relative [f] and a non-empty [d] without a
    trailing separator, and [os.path.basename]. *)
Definition path_join (d f : string) : string := d ++ "/" ++ f.

Fixpoint basename (p : string) : string :=
  match p with
  | EmptyString => EmptyString
  | String c p' =>
      if contains "/" p then basename p' else p
  end.

End Py.

Import Py.

Declare Scope py_scope.
Delimit Scope py_scope with py.
Notation "'let!' x ':=' c 'in' k" := (Py.bind c (fun x => k))
  (at level 10, x name, c at level 100, k at level 200) : py_scope.
Notation "'do!' c 'in' k" := (Py.bind c (fun _ => k))
  (at level 10, c at level 100, k at level 200) : py_scope.
Local Open Scope py_scope.

(** ** The alert family: [app/ml/model_manager.py] *)

Module Alert.

Definition MODELS_DIR : string := "models".
Definition META_PATH : string := path_join MODELS_DIR "models_meta.json".

(** The float literals of the module, as the doubles they round to. *)
Definition f0_3 : Q := 5404319552844595 # 18014398509481984.
Definition f0_4 : Q := 3602879701896397 # 9007199254740992.
Definition f0_6 : Q := 5404319552844595 # 9007199254740992.
Definition f0_8 : Q := 3602879701896397 # 4503599627370496.

(** Modelled from the spec: the entity snapshot [Twin], declared in
    [app/database/twin_schema.py], which is not among the sources.  It
    exposes the fixed set of fields that the feature-vector function
    consumes: age, gender, anthropometrics, vitals, lifestyle scores and
    derived risk scores.  [age], [height_cm] and [weight_kg] are read
    without a default; every other column may be NULL. *)
Record Twin : Type := {
  age : Q;
  gender : option string;
  height_cm : Q;
  weight_kg : Q;
  spo2 : option Q;
  resting_hr : option Q;
  sleep_hours : option Q;
  screen_time_hours : option Q;
  exercise_level : option Q;
  smoking : option Q;
  alcohol : option Q;
  daily_steps : option Q;
  outside_food_per_week : option Q;
  tea_coffee_per_day : option Q;
  diet_type : option string;
  income : option Q;
  aqi : option Q;
  commute_hours : option Q;
  ac_exposure_hours : option Q;
  heart_score : option Q;
  metabolic_score : option Q;
  mental_stress_score : option Q;
  lung_risk_score : option Q;
  organ_load_score : option Q
}.

(** One row of the registry document. *)
Record ModelRecord : Type := {
  name : string;
  path : string;
  model_type : option string;
  accuracy : Q;
  f1_macro : Q;
  mlflow_run_id : option string;
  created_at : string;
  active : bool
}.

(** [m["active"] = b] *)
Definition set_active (b : bool) (m : ModelRecord) : ModelRecord :=
  {| name := name m; path := path m; model_type := model_type m;
     accuracy := accuracy m; f1_macro := f1_macro m;
     mlflow_run_id := mlflow_run_id m; created_at := created_at m;
     active := b |}.

(** A fitted pipeline, seen through [int(pipe.predict([features])[0])]. *)
Definition Pipeline : Type := list Q -> Z.

(** What a file under [MODELS_DIR] holds: a pickled pipeline, or bytes
    that [joblib.load] cannot read. *)
Inductive artifact : Type :=
| Joblib (pipe : Pipeline)
| Corrupt.

Record World : Type := {
  meta_file : option (list ModelRecord);  (* models_meta.json, if created *)
  files : gmap string artifact;           (* the artifact files *)
  twins : list Twin;                      (* [db.query(Twin).all()] *)
  mlflow_runs : list string               (* run names sent to the tracker *)
}.

Definition with_meta (w : World) (m : list ModelRecord) : World :=
  {| meta_file := Some m; files := files w; twins := twins w;
     mlflow_runs := mlflow_runs w |}.
Definition with_file (w : World) (p : string) (a : artifact) : World :=
  {| meta_file := meta_file w; files := <[p := a]> (files w);
     twins := twins w; mlflow_runs := mlflow_runs w |}.
Definition with_run (w : World) (r : string) : World :=
  {| meta_file := meta_file w; files := files w; twins := twins w;
     mlflow_runs := mlflow_runs w ++ [r] |}.

(** *** File and meta helpers *)

Definition _ensure_dirs : M World unit :=
  fun w => match meta_file w with
           | Some _ => (Returns tt, w)
           | None => (Returns tt, with_meta w [])
           end.

Definition _load_meta : M World (list ModelRecord) :=
  do! _ensure_dirs in
  let! w := get in
  match meta_file w with
  | Some m => ret m
  | None => raise (FileNotFoundError META_PATH)
  end.

Definition _save_meta (meta : list ModelRecord) : M World unit :=
  modify (fun w => with_meta w meta).


(** The registry a reader of the document sees: a document that was
    never created reads as the empty list. *)
Definition registry (w : World) : list ModelRecord :=
  default [] (meta_file w).

(** The world once the directory and the document exist. *)
Definition ensured (w : World) : World :=
  match meta_file w with
  | Some _ => w
  | None => with_meta w []
  end.

(** [active[-1]] of a non-empty list. *)
Definition get_active_model_path : M World (option string) :=
  let! meta := _load_meta in
  let active := List.filter active meta in
  ret (path <$> last active).

(** The first active record met from the end. *)
Definition get_active_model_info : M World (option ModelRecord) :=
  let! meta := _load_meta in
  ret (List.find active (rev meta)).

(** *** Feature encoders *)

Definition _encode_gender (g : option string) : Q :=
  match g with
  | None => 0
  | Some EmptyString => 0
  | Some g =>
      let g := lower g in
      if startswith "m" g then 0
      else if startswith "f" g then 1
      else 2
  end%Q.

Definition _encode_diet (d : option string) : Q :=
  match d with
  | None => 3
  | Some EmptyString => 3
  | Some d =>
      let d := lower d in
      if contains "veg" d && negb (contains "non" d) then 0
      else if contains "egg" d then 1
      else if contains "non" d then 2
      else 3
  end%Q.

Definition _build_feature_vector (t : Twin) : outcome (list Q) :=
  let h := ((height_cm t / 100) * (height_cm t / 100))%Q in
  if Qeq_bool h 0 then Raises ZeroDivisionError
  else
    let bmi := (weight_kg t / h)%Q in
    Returns [
      age t;
      _encode_gender (gender t);
      bmi;
      or_default (spo2 t) 97;
      or_default (resting_hr t) 72;
      or_default (sleep_hours t) 7;
      or_default (screen_time_hours t) 6;
      or_default (exercise_level t) 1;
      or_default (smoking t) 0;
      or_default (alcohol t) 0;
      or_default (daily_steps t) 4000;
      or_default (outside_food_per_week t) 3;
      or_default (tea_coffee_per_day t) 2;
      _encode_diet (diet_type t);
      or_default (income t) 600000;
      or_default (aqi t) 120;
      or_default (commute_hours t) 1;
      or_default (ac_exposure_hours t) 4;
      or_default (heart_score t) f0_3;
      or_default (metabolic_score t) f0_3;
      or_default (mental_stress_score t) f0_3;
      or_default (lung_risk_score t) f0_3;
      or_default (organ_load_score t) f0_4
    ]%Q.

Definition _build_label (t : Twin) : Z :=
  let ol := or_default (organ_load_score t) 0%Q in
  (if Qltb ol f0_4 then 0
   else if Qltb ol f0_6 then 1
   else if Qltb ol f0_8 then 2
   else 3)%Z.

(** *** Loading the training data *)

Fixpoint build_rows (ts : list Twin) : outcome (list (list Q) * list Z) :=
  match ts with
  | [] => Returns ([], [])
  | t :: ts' =>
      match _build_feature_vector t with
      | Raises e => Raises e
      | Returns x =>
          match build_rows ts' with
          | Raises e => Raises e
          | Returns (X, y) => Returns (x :: X, _build_label t :: y)
          end
      end
  end.

Definition _load_training_data_from_db
  : M World (list (list Q) * list Z) :=
  let! w := get in
  let twins := twins w in
  if (length twins <? 10)%nat
  then raise (ValueError "Not enough twins to train model.")
  else lift (build_rows twins).

(** *** Retraining: the bake-off and the promotion *)

Definition Split : Type :=
  (list (list Q) * list (list Q) * list Z * list Z)%type.

(** What the libraries and the clock answer during one run. *)
Record TrainEnv : Type := {
  XGBOOST_AVAILABLE : bool;
  (* [train_test_split(X, y, test_size=0.25, stratify=y, random_state=42)] *)
  train_test_split : list (list Q) -> list Z -> outcome Split;
  (* [pipe.fit], [pipe.predict], [accuracy_score], [f1_score] for a key:
     the fitted pipeline, its accuracy and its macro-F1 *)
  fit_and_score : string -> Split -> outcome (Pipeline * Q * Q);
  (* [datetime.utcnow().strftime(...)] read while the key is evaluated *)
  utcnow_stamp : string -> string;
  (* [run.info.run_id] of the key's tracker run *)
  run_id : string -> string;
  (* [datetime.utcnow().isoformat()] read for the new record *)
  utcnow_iso : string
}.

(** The keys of [models], in insertion order. *)
Definition models (env : TrainEnv) : list string :=
  ["logreg"; "rf"; "gb"; "knn"; "extra_trees"; "adaboost"]
  ++ (if XGBOOST_AVAILABLE env then ["xgboost"] else []).

(** The five [best_*] variables of the loop. *)
Record Best : Type := {
  best_model_path : option string;
  best_f1 : Q;
  best_acc : Q;
  best_key : option string;
  best_run : option string
}.

Definition initial_best : Best :=
  {| best_model_path := None; best_f1 := (-1)%Q; best_acc := 0%Q;
     best_key := None; best_run := None |}.

Definition model_path_of (env : TrainEnv) (key : string) : string :=
  path_join MODELS_DIR
    ("alert_" ++ key ++ "_" ++ utcnow_stamp env key ++ ".joblib").

(** The [if f1 > best_f1] block. *)
Definition update_best (env : TrainEnv) (key : string) (acc f1 : Q)
    (b : Best) : Best :=
  if Qltb (best_f1 b) f1
  then {| best_model_path := Some (model_path_of env key);
          best_f1 := f1; best_acc := acc;
          best_key := Some key; best_run := Some (run_id env key) |}
  else b.

(** [for key, clf in models.items(): ...] *)
Fixpoint bakeoff (env : TrainEnv) (sp : Split) (keys : list string)
    (b : Best) : M World Best :=
  match keys with
  | [] => ret b
  | key :: rest =>
      do! modify (fun w => with_run w ("alert_" ++ key)) in
      let! fitted := lift (fit_and_score env key sp) in
      let '(pipe, acc, f1) := fitted in
      do! modify (fun w => with_file w (model_path_of env key) (Joblib pipe)) in
      bakeoff env sp rest (update_best env key acc f1 b)
  end.

Record Summary : Type := {
  status : string;
  best_model : option string;
  summary_accuracy : Q;
  summary_f1_macro : Q;
  model_path : string;
  summary_run_id : option string
}.

(** The dict appended to [meta["models"]]. *)
Definition new_record (env : TrainEnv) (b : Best) (p : string)
    : ModelRecord :=
  {| name := basename p; path := p; model_type := best_key b;
     accuracy := best_acc b; f1_macro := best_f1 b;
     mlflow_run_id := best_run b; created_at := utcnow_iso env;
     active := true |}.

(** The dict returned to the caller. *)
Definition summary_of (b : Best) (p : string) : Summary :=
  {| status := "trained_on_real_db"; best_model := best_key b;
     summary_accuracy := best_acc b; summary_f1_macro := best_f1 b;
     model_path := p; summary_run_id := best_run b |}.

Definition retrain_alert_model (env : TrainEnv) : M World Summary :=
  do! _ensure_dirs in
  let! data := _load_training_data_from_db in
  let '(X, y) := data in
  let! sp := lift (train_test_split env X y) in
  let! b := bakeoff env sp (models env) initial_best in
  let! meta := _load_meta in
  let meta := set_active false <$> meta in
  match best_model_path b with
  | None =>
      (* [os.path.basename(None)] *)
      raise (TypeError "expected str, bytes or os.PathLike object, not NoneType")
  | Some p =>
      do! _save_meta (meta ++ [new_record env b p]) in
      ret (summary_of b p)
  end.

(** *** Prediction with the active model *)

(** [joblib.load(path)] *)
Definition load (p : string) : M World Pipeline :=
  let! w := get in
  match files w !! p with
  | None => raise (FileNotFoundError p)
  | Some Corrupt => raise (UnpicklingError p)
  | Some (Joblib pipe) => ret pipe
  end.

Definition labels : gmap Z string :=
  <[0%Z := "no_consult"]> (<[1%Z := "routine_consult"]>
    (<[2%Z := "specialist_consult"]> (<[3%Z := "emergency"]> ∅))).

Inductive AlertResult : Type :=
| NoModel (error : string)             (* [{"error": ...}] *)
| Prediction (class_id : Z) (label : string).

Definition predict_alert_for_twin (twin : Twin) : M World AlertResult :=
  let! path := get_active_model_path in
  match path with
  | None | Some EmptyString => ret (NoModel "No active model found")
  | Some path =>
      let! model := load path in
      let! features := lift (_build_feature_vector twin) in
      let pred := model features in
      match labels !! pred with
      | Some l => ret (Prediction pred l)
      | None => raise (KeyError (pretty pred))
      end
  end.

End Alert.

(** ** The food family: [app/nutrition/food_ml_model.py] *)

Module Food.

Definition FOOD_MODELS_DIR : string := "models_food".
Definition FOOD_META_PATH : string :=
  path_join FOOD_MODELS_DIR "food_models_meta.json".

Record Nutrients : Type := { cal : Q; p : Q; c : Q; f : Q }.

(** The catalog, in the insertion order of the dict.  The prediction path
    reads only its keys and their order; the per-unit values are the
    decimal literals of the source. *)
Definition FOOD_DB : list (string * Nutrients) := [
  ("idli",          {| cal := 70;  p := 2.0; c := 12.0; f := 0.5 |});
  ("dosa",          {| cal := 130; p := 3.0; c := 20.0; f := 4.0 |});
  ("poha",          {| cal := 180; p := 4.0; c := 30.0; f := 5.0 |});
  ("upma",          {| cal := 200; p := 5.0; c := 28.0; f := 7.0 |});
  ("aloo_paratha",  {| cal := 220; p := 5.0; c := 30.0; f := 9.0 |});
  ("chai",          {| cal := 80;  p := 2.0; c := 10.0; f := 3.0 |});
  ("coffee",        {| cal := 60;  p := 2.0; c := 6.0;  f := 2.0 |});
  ("bread_slice",   {| cal := 75;  p := 2.5; c := 14.0; f := 1.0 |});
  ("omelette",      {| cal := 120; p := 8.0; c := 1.0;  f := 9.0 |});
  ("curd_bowl",     {| cal := 90;  p := 5.0; c := 4.0;  f := 5.0 |});
  ("paratha_plain", {| cal := 190; p := 4.0; c := 28.0; f := 7.0 |});
  ("banana",        {| cal := 100; p := 1.2; c := 25.0; f := 0.3 |})
]%Q.

(** [{name: idx for idx, name in enumerate(FOOD_DB.keys())}] *)
Definition FOOD_INDEX : gmap string nat :=
  list_to_map (imap (fun idx name => (name, idx)) (map fst FOOD_DB)).

Record FoodRecord : Type := {
  name : string;
  path : string;
  mae : Q;
  mlflow_run_id : string;
  created_at : string;
  active : bool
}.

Definition set_active (b : bool) (m : FoodRecord) : FoodRecord :=
  {| name := name m; path := path m; mae := mae m;
     mlflow_run_id := mlflow_run_id m; created_at := created_at m;
     active := b |}.

(** A fitted regressor, seen through [model.predict([[idx, qty]])[0]]. *)
Definition Regressor : Type := nat -> Q -> Q * Q * Q * Q.

Inductive artifact : Type :=
| Joblib (model : Regressor)
| Corrupt.

Record World : Type := {
  meta_file : option (list FoodRecord);  (* food_models_meta.json *)
  files : gmap string artifact;          (* the artifact files *)
  mlflow_runs : list string              (* run names sent to the tracker *)
}.

Definition with_meta (w : World) (m : list FoodRecord) : World :=
  {| meta_file := Some m; files := files w; mlflow_runs := mlflow_runs w |}.
Definition with_file (w : World) (p : string) (a : artifact) : World :=
  {| meta_file := meta_file w; files := <[p := a]> (files w);
     mlflow_runs := mlflow_runs w |}.
Definition with_run (w : World) (r : string) : World :=
  {| meta_file := meta_file w; files := files w;
     mlflow_runs := mlflow_runs w ++ [r] |}.

Definition _ensure_food_dirs : M World unit :=
  fun w => match meta_file w with
           | Some _ => (Returns tt, w)
           | None => (Returns tt, with_meta w [])
           end.

Definition _load_food_meta : M World (list FoodRecord) :=
  do! _ensure_food_dirs in
  let! w := get in
  match meta_file w with
  | Some m => ret m
  | None => raise (FileNotFoundError FOOD_META_PATH)
  end.

Definition _save_food_meta (meta : list FoodRecord) : M World unit :=
  modify (fun w => with_meta w meta).

Definition get_active_food_model_path : M World (option string) :=
  let! models := _load_food_meta in
  let active := List.filter active models in
  match last active with
  | None => ret None
  | Some m => ret (Some (path m))
  end.

Definition get_registered_food_models : M World (list FoodRecord) :=
  _load_food_meta.

(** The registry a reader of the document sees. *)
Definition registry (w : World) : list FoodRecord :=
  default [] (meta_file w).

(** The world once the directory and the document exist. *)
Definition ensured (w : World) : World :=
  match meta_file w with
  | Some _ => w
  | None => with_meta w []
  end.

(** *** Retraining *)

(** What the libraries and the clock answer during one run.  The
    training set is synthetic and the seeds are fixed, so the fitted
    regressor and its error do not depend on the world. *)
Record TrainEnv : Type := {
  fitted : Regressor;       (* [model.fit(X_train, y_train)] *)
  fitted_mae : Q;           (* [mean_absolute_error(y_test, preds)] *)
  utcnow_stamp : string;    (* [datetime.utcnow().strftime(...)] *)
  run_id : string;          (* [run.info.run_id] *)
  utcnow_iso : string       (* [datetime.utcnow().isoformat()] *)
}.

Record Summary : Type := {
  status : string;
  summary_mae : Q;
  model_path : string;
  summary_run_id : string
}.

Definition model_path_of (env : TrainEnv) : string :=
  path_join FOOD_MODELS_DIR ("food_model_" ++ utcnow_stamp env ++ ".joblib").

(** The dict appended to [meta["models"]]. *)
Definition new_record (env : TrainEnv) : FoodRecord :=
  {| name := basename (model_path_of env); path := model_path_of env;
     mae := fitted_mae env; mlflow_run_id := run_id env;
     created_at := utcnow_iso env; active := true |}.

Definition retrain_food_model (env : TrainEnv) : M World Summary :=
  do! _ensure_food_dirs in
  do! modify (fun w => with_run w "food_calorie_model") in
  let model := fitted env in
  let mae := fitted_mae env in
  let model_path := model_path_of env in
  do! modify (fun w => with_file w model_path (Joblib model)) in
  let! meta := _load_food_meta in
  let meta := set_active false <$> meta in
  do! _save_food_meta (meta ++ [new_record env]) in
  ret {| status := "trained_food_model"; summary_mae := mae;
         model_path := model_path; summary_run_id := run_id env |}.

(** *** Prediction *)

(** [joblib.load(path)] *)
Definition load (path : string) : M World Regressor :=
  let! w := get in
  match files w !! path with
  | None => raise (FileNotFoundError path)
  | Some Corrupt => raise (UnpicklingError path)
  | Some (Joblib model) => ret model
  end.

(** [os.path.exists(path)] *)
Definition exists_ (path : string) : M World bool :=
  let! w := get in
  ret (bool_decide (is_Some (files w !! path))).

(** [not path] for an optional string. *)
Definition falsy (path : option string) : bool :=
  match path with
  | None | Some EmptyString => true
  | Some _ => false
  end.

Definition _load_active_food_model (env : TrainEnv) : M World Regressor :=
  let! path := get_active_food_model_path in
  let! present :=
    match path with
    | Some q => exists_ q
    | None => ret false
    end in
  let! path :=
    if falsy path || negb present
    then
      let! info := retrain_food_model env in
      ret (model_path info)
    else ret (default "" path) in
  load path.

(** One entry of [items]: a dict that may lack either key. *)
Record MealItem : Type := {
  item_name : option string;     (* ["name"] *)
  quantity : option Q            (* ["quantity"] *)
}.

Record Totals : Type := {
  calories : Q;
  protein : Q;
  carbs : Q;
  fat : Q
}.

(** [item.get("name", "").strip().lower().replace(" ", "_")] *)
Definition raw_name (item : MealItem) : string :=
  replace_char " " "_" (lower (strip (default "" (item_name item)))).

(** [float(item.get("quantity", 1.0))] *)
Definition qty (item : MealItem) : Q := default 1%Q (quantity item).

(** The body of [for item in items]. *)
Definition add_item (model : Regressor) (t : Totals) (item : MealItem)
    : Totals :=
  match FOOD_INDEX !! raw_name item with
  | None => t
  | Some idx =>
      let '(cal, p, c, f) := model idx (qty item) in
      {| calories := calories t + cal; protein := protein t + p;
         carbs := carbs t + c; fat := fat t + f |}%Q
  end.

Definition zero_totals : Totals :=
  {| calories := 0; protein := 0; carbs := 0; fat := 0 |}%Q.

Definition predict_meal_nutrition (env : TrainEnv) (items : list MealItem)
    : M World Totals :=
  let! model := _load_active_food_model env in
  ret (fold_left (add_item model) items zero_totals).

End Food.

(** ** The food operations facade: [app/nutrition/nutrition_mlops.py] *)

Module Mlops.

Definition retrain_food_mlops (env : Food.TrainEnv)
    : M Food.World Food.Summary :=
  Food.retrain_food_model env.

Definition list_food_models : M Food.World (list Food.FoodRecord) :=
  Food.get_registered_food_models.

(** The dict [{"active_food_model": path}]. *)
Record Status : Type := { active_food_model_path : option string }.

Definition active_food_model : M Food.World Status :=
  let! path := Food.get_active_food_model_path in
  ret {| active_food_model_path := path |}.

End Mlops.

(** ** The meal service: [app/nutrition/nutrition_service.py] *)

Module Service.

(** What the service raises: its own errors, or one that the food model
    let through. *)
Inductive error : Type :=
| AttributeError (msg : string)
| ValueError (msg : string)
| FromModel (e : exn).

Inductive answer (A : Type) : Type :=
| Ok (a : A)
| Fail (e : error).
Arguments Ok {A} a.
Arguments Fail {A} e.

(** A row of [meal_logs] ([app/nutrition/nutrition_models.py]).  The
    column [food_json] holds [json.dumps(items)], kept here as the items
    it encodes. *)
Module MealLog.
Record t : Type := {
  id : Z;
  twin_id : Z;
  date : string;
  meal_type : string;
  food_json : list Food.MealItem;
  calories : Q;
  protein : Q;
  carbs : Q;
  fat : Q;
  created_at : string
}.
End MealLog.

(** A row of [daily_calorie_summary]. *)
Module DailyCalorieSummary.
Record t : Type := {
  id : Z;
  twin_id : Z;
  date : string;
  total_calories : Q;
  required_calories : Q;
  calorie_balance : Q
}.
End DailyCalorieSummary.

(** The database session: the committed rows of the three tables, in
    row order, and the rows added to the session and not yet committed.
    A query sees both. *)
Record Session : Type := {
  twins : list (Z * Alert.Twin);                  (* [Twin.id] and the row *)
  meal_logs : list MealLog.t;
  daily_calorie_summary : list DailyCalorieSummary.t;
  new_meal_logs : list MealLog.t;                 (* [db.add], uncommitted *)
  new_daily_calorie_summary : list DailyCalorieSummary.t
}.

Record World : Type := {
  db : Session;
  food : Food.World
}.

(** What the clock, the database and the libraries answer during a call.
    [round] takes the exact result of an operation on doubles to the
    double that the operation returns. *)
Record Env : Type := {
  today : string;               (* [date.today()] *)
  utcnow : string;              (* default of [MealLog.created_at] *)
  meal_id : Z;                  (* primary key given to the new meal *)
  daily_id : Z;                 (* primary key given to a new summary *)
  round : Q -> Q;
  food_env : Food.TrainEnv
}.

(** The float literals of the module, as the doubles they round to. *)
Definition f1_2 : Q := 5404319552844595 # 4503599627370496.
Definition f1_375 : Q := 11 # 8.
Definition f1_55 : Q := 6980579422424269 # 4503599627370496.
Definition f1_725 : Q := 3884354678607053 # 2251799813685248.
Definition f6_25 : Q := 25 # 4.

Definition _estimate_required_calories (env : Env) (twin : Alert.Twin)
    : answer Q :=
  let fadd x y := round env (x + y)%Q in
  let fsub x y := round env (x - y)%Q in
  let fmul x y := round env (x * y)%Q in
  if Qeq_bool (Alert.height_cm twin) 0 || Qeq_bool (Alert.weight_kg twin) 0
     || Qeq_bool (Alert.age twin) 0
  then Ok 2000%Q
  else
    let height := Alert.height_cm twin in
    let weight := Alert.weight_kg twin in
    let age := Alert.age twin in
    match Alert.gender twin with
    | None => Fail (AttributeError "'NoneType' object has no attribute 'lower'")
    | Some gender =>
        let bmr :=
          if startswith "m" (lower gender)
          then fadd (fsub (fadd (fmul 10%Q weight) (fmul f6_25 height))
                       (fmul 5%Q age)) 5%Q
          else fsub (fsub (fadd (fmul 10%Q weight) (fmul f6_25 height))
                       (fmul 5%Q age)) 161%Q in
        let level := or_default (Alert.exercise_level twin) 1%Q in
        let factor :=
          if Qeq_bool level 0 then f1_2
          else if Qeq_bool level 1 then f1_375
          else if Qeq_bool level 2 then f1_55
          else f1_725 in
        Ok (fmul bmr factor)
    end.

(** [db.query(Twin).filter(Twin.id == twin_id).first()] *)
Definition first_twin (s : Session) (twin_id : Z) : option Alert.Twin :=
  snd <$> List.find (fun row => Z.eqb (fst row) twin_id) (twins s).

Definition daily_matches (twin_id : Z) (day : string)
    (d : DailyCalorieSummary.t) : bool :=
  Z.eqb (DailyCalorieSummary.twin_id d) twin_id
  && String.eqb (DailyCalorieSummary.date d) day.

(** [db.query(DailyCalorieSummary).filter(...).first()] *)
Definition first_daily (s : Session) (twin_id : Z) (day : string)
    : option DailyCalorieSummary.t :=
  List.find (daily_matches twin_id day)
    (daily_calorie_summary s ++ new_daily_calorie_summary s).

(** [db.add(meal)] and [db.add(daily)] *)
Definition add_meal (s : Session) (m : MealLog.t) : Session :=
  {| twins := twins s; meal_logs := meal_logs s;
     daily_calorie_summary := daily_calorie_summary s;
     new_meal_logs := new_meal_logs s ++ [m];
     new_daily_calorie_summary := new_daily_calorie_summary s |}.

Definition add_daily (s : Session) (d : DailyCalorieSummary.t) : Session :=
  {| twins := twins s; meal_logs := meal_logs s;
     daily_calorie_summary := daily_calorie_summary s;
     new_meal_logs := new_meal_logs s;
     new_daily_calorie_summary := new_daily_calorie_summary s ++ [d] |}.

(** Assignment to the attributes of the row that [first_daily] found:
    the first matching row is replaced. *)
Fixpoint replace_first (twin_id : Z) (day : string)
    (d' : DailyCalorieSummary.t) (rows : list DailyCalorieSummary.t)
    : list DailyCalorieSummary.t :=
  match rows with
  | [] => []
  | d :: rest =>
      if daily_matches twin_id day d then d' :: rest
      else d :: replace_first twin_id day d' rest
  end.

Definition update_daily (s : Session) (twin_id : Z) (day : string)
    (d' : DailyCalorieSummary.t) : Session :=
  if existsb (daily_matches twin_id day) (daily_calorie_summary s)
  then {| twins := twins s; meal_logs := meal_logs s;
          daily_calorie_summary :=
            replace_first twin_id day d' (daily_calorie_summary s);
          new_meal_logs := new_meal_logs s;
          new_daily_calorie_summary := new_daily_calorie_summary s |}
  else {| twins := twins s; meal_logs := meal_logs s;
          daily_calorie_summary := daily_calorie_summary s;
          new_meal_logs := new_meal_logs s;
          new_daily_calorie_summary :=
            replace_first twin_id day d' (new_daily_calorie_summary s) |}.

(** [db.commit()] *)
Definition commit (s : Session) : Session :=
  {| twins := twins s;
     meal_logs := meal_logs s ++ new_meal_logs s;
     daily_calorie_summary :=
       daily_calorie_summary s ++ new_daily_calorie_summary s;
     new_meal_logs := []; new_daily_calorie_summary := [] |}.

Definition log_meal (env : Env) (twin_id : Z) (meal_type : string)
    (items : list Food.MealItem) (w : World)
    : answer (MealLog.t * DailyCalorieSummary.t) * World :=
  match first_twin (db w) twin_id with
  | None => (Fail (ValueError "Twin not found"), w)
  | Some twin =>
      match Food.predict_meal_nutrition (food_env env) items (food w) with
      | (Raises e, fw) => (Fail (FromModel e), {| db := db w; food := fw |})
      | (Returns nutrition, fw) =>
          let today := today env in
          let meal :=
            {| MealLog.id := meal_id env; MealLog.twin_id := twin_id;
               MealLog.date := today; MealLog.meal_type := meal_type;
               MealLog.food_json := items;
               MealLog.calories := Food.calories nutrition;
               MealLog.protein := Food.protein nutrition;
               MealLog.carbs := Food.carbs nutrition;
               MealLog.fat := Food.fat nutrition;
               MealLog.created_at := utcnow env |} in
          let s := add_meal (db w) meal in
          match first_daily s twin_id today with
          | None =>
              match _estimate_required_calories env twin with
              | Fail e => (Fail e, {| db := s; food := fw |})
              | Ok required =>
                  let total := Food.calories nutrition in
                  let daily :=
                    {| DailyCalorieSummary.id := daily_id env;
                       DailyCalorieSummary.twin_id := twin_id;
                       DailyCalorieSummary.date := today;
                       DailyCalorieSummary.total_calories := total;
                       DailyCalorieSummary.required_calories := required;
                       DailyCalorieSummary.calorie_balance :=
                         round env (total - required)%Q |} in
                  (Ok (meal, daily),
                   {| db := commit (add_daily s daily); food := fw |})
              end
          | Some daily =>
              let total :=
                round env (DailyCalorieSummary.total_calories daily
                           + Food.calories nutrition)%Q in
              let daily :=
                {| DailyCalorieSummary.id := DailyCalorieSummary.id daily;
                   DailyCalorieSummary.twin_id :=
                     DailyCalorieSummary.twin_id daily;
                   DailyCalorieSummary.date := DailyCalorieSummary.date daily;
                   DailyCalorieSummary.total_calories := total;
                   DailyCalorieSummary.required_calories :=
                     DailyCalorieSummary.required_calories daily;
                   DailyCalorieSummary.calorie_balance :=
                     round env
                       (total - DailyCalorieSummary.required_calories daily)%Q
                |} in
              (Ok (meal, daily),
               {| db := commit (update_daily s twin_id today daily);
                  food := fw |})
          end
      end
  end.

Definition get_daily_summary (env : Env) (twin_id : Z) (w : World)
    : answer DailyCalorieSummary.t * World :=
  let today := today env in
  match first_daily (db w) twin_id today with
  | Some daily => (Ok daily, w)
  | None =>
      match first_twin (db w) twin_id with
      | None => (Fail (ValueError "Twin not found"), w)
      | Some twin =>
          match _estimate_required_calories env twin with
          | Fail e => (Fail e, w)
          | Ok required =>
              let daily :=
                {| DailyCalorieSummary.id := daily_id env;
                   DailyCalorieSummary.twin_id := twin_id;
                   DailyCalorieSummary.date := today;
                   DailyCalorieSummary.total_calories := 0%Q;
                   DailyCalorieSummary.required_calories := required;
                   DailyCalorieSummary.calorie_balance := (- required)%Q |} in
              (Ok daily,
               {| db := commit (add_daily (db w) daily); food := food w |})
          end
      end
  end.

End Service.

(** ** Vocabulary of the properties *)

(** The two model families and their registries. *)
Inductive family : Type := alert | food.

Definition record (fam : family) : Type :=
  match fam with
  | alert => Alert.ModelRecord
  | food => Food.FoodRecord
  end.

Definition is_active {fam : family} : record fam -> bool :=
  match fam with
  | alert => Alert.active
  | food => Food.active
  end.

Definition deactivate {fam : family} : record fam -> record fam :=
  match fam with
  | alert => Alert.set_active false
  | food => Food.set_active false
  end.

(** One successful training run of the family takes the registry [r] to
    the registry [r']. *)
Definition trained (fam : family) : list (record fam) -> list (record fam) -> Prop :=
  match fam with
  | alert => fun r r' =>
      exists env w s w',
        Alert.registry w = r /\
        Alert.retrain_alert_model env w = (Returns s, w') /\
        Alert.registry w' = r'
  | food => fun r r' =>
      exists env w s w',
        Food.registry w = r /\
        Food.retrain_food_model env w = (Returns s, w') /\
        Food.registry w' = r'
  end.

(** [after_runs fam r0 n r]: [n] successful training runs, one after the
    other, take the registry [r0] to [r].  Between two runs the rest of the
    world may change; the registry has no other writer. *)
Inductive after_runs (fam : family) (r0 : list (record fam))
  : nat -> list (record fam) -> Prop :=
| runs_none : after_runs fam r0 0 r0
| runs_more n r r' :
    after_runs fam r0 n r -> trained fam r r' -> after_runs fam r0 (S n) r'.

(** The organ-load score that the label is computed from. *)
Definition organ_load (t : Alert.Twin) : Q :=
  or_default (Alert.organ_load_score t) 0%Q.

Definition thresholds : list Q := [Alert.f0_4; Alert.f0_6; Alert.f0_8].

(** The number of thresholds that a score exceeds, that is, lies strictly
    above. *)
Definition thresholds_exceeded (ol : Q) : Z :=
  Z.of_nat (length (List.filter (fun th => Qltb th ol) thresholds)).

(** The number of thresholds that a score reaches or exceeds. *)
Definition thresholds_reached (ol : Q) : Z :=
  Z.of_nat (length (List.filter (fun th => negb (Qltb ol th)) thresholds)).

(** [last_active r o]: [o] is the active record of [r] that appears last in
    insertion order, or nothing when [r] has no active record. *)
Definition last_active {fam : family} (r : list (record fam))
    (o : option (record fam)) : Prop :=
  match o with
  | Some m =>
      exists before after,
        r = before ++ m :: after /\ is_active m = true /\
        Forall (fun x => is_active x = false) after
  | None => Forall (fun x => is_active x = false) r
  end.

(** What the bake-off learns about one candidate: its key, its accuracy
    and its macro-F1 on the held-out partition. *)
Record Evaluation : Type := { ev_key : string; ev_acc : Q; ev_f1 : Q }.

Definition evaluate (env : Alert.TrainEnv) (sp : Alert.Split) (key : string)
    : outcome Evaluation :=
  match Alert.fit_and_score env key sp with
  | Returns (_, acc, f1) => Returns {| ev_key := key; ev_acc := acc; ev_f1 := f1 |}
  | Raises e => Raises e
  end.

(** The evaluations of a roster, in its order; the first failure ends it. *)
Fixpoint evaluations (env : Alert.TrainEnv) (sp : Alert.Split)
    (keys : list string) : outcome (list Evaluation) :=
  match keys with
  | [] => Returns []
  | key :: rest =>
      match evaluate env sp key with
      | Raises e => Raises e
      | Returns ev =>
          match evaluations env sp rest with
          | Raises e => Raises e
          | Returns evs => Returns (ev :: evs)
          end
      end
  end.

Definition pick (env : Alert.TrainEnv) (b : Alert.Best) (ev : Evaluation)
    : Alert.Best :=
  Alert.update_best env (ev_key ev) (ev_acc ev) (ev_f1 ev) b.

(** [wins evs ev]: [ev] has the highest macro-F1 of [evs], and is the first
    evaluated among those that tie with it: everything evaluated before
    it scored strictly less, nothing evaluated after it scored more. *)
Definition wins (evs : list Evaluation) (ev : Evaluation) : Prop :=
  exists before after,
    evs = before ++ ev :: after /\
    Forall (fun x => (ev_f1 x < ev_f1 ev)%Q) before /\
    Forall (fun x => (ev_f1 x <= ev_f1 ev)%Q) after.

(** The [best_*] variables once [ev] has been taken as the best so far. *)
Definition chosen (env : Alert.TrainEnv) (ev : Evaluation) : Alert.Best :=
  {| Alert.best_model_path := Some (Alert.model_path_of env (ev_key ev));
     Alert.best_f1 := ev_f1 ev; Alert.best_acc := ev_acc ev;
     Alert.best_key := Some (ev_key ev);
     Alert.best_run := Some (Alert.run_id env (ev_key ev)) |}.

(** The evaluations that a run of the bake-off in world [w] goes through. *)
Definition bakeoff_scores (env : Alert.TrainEnv) (w : Alert.World)
    : outcome (list Evaluation) :=
  match Alert.build_rows (Alert.twins w) with
  | Raises e => Raises e
  | Returns (X, y) =>
      match Alert.train_test_split env X y with
      | Raises e => Raises e
      | Returns sp => evaluations env sp (Alert.models env)
      end
  end.

(** Two evaluations of the same candidate with the same macro-F1; their
    accuracies are unrelated. *)
Definition same_f1 (a b : Evaluation) : Prop :=
  ev_key a = ev_key b /\ (ev_f1 a == ev_f1 b)%Q.

(** The libraries answer every call of a run, and [f1_score] answers with
    a score that is not negative. *)
Definition libraries_succeed (env : Alert.TrainEnv) : Prop :=
  (forall X y, exists sp, Alert.train_test_split env X y = Returns sp) /\
  (forall key sp, exists pipe acc f1,
      Alert.fit_and_score env key sp = Returns (pipe, acc, f1) /\
      (0 <= f1)%Q).

(** A twin whose feature vector can be computed. *)
Definition measurable (t : Alert.Twin) : Prop :=
  exists x, Alert._build_feature_vector t = Returns x.


(** The totals that a regressor gives for a list of items. *)
Definition totals_with (model : Food.Regressor) (items : list Food.MealItem)
    : Food.Totals :=
  fold_left (Food.add_item model) items Food.zero_totals.

(** The food world after a training run started from [w]. *)
Definition bootstrapped (env : Food.TrainEnv) (w : Food.World) : Food.World :=
  {| Food.meta_file :=
       Some ((Food.set_active false <$> Food.registry w)
             ++ [Food.new_record env]);
     Food.files :=
       <[Food.model_path_of env := Food.Joblib (Food.fitted env)]>
         (Food.files w);
     Food.mlflow_runs := Food.mlflow_runs w ++ ["food_calorie_model"] |}.




(** The twin [t] with its organ-load score replaced. *)
Definition with_organ_load (t : Alert.Twin) (score : option Q) : Alert.Twin :=
  {| Alert.age := Alert.age t; Alert.gender := Alert.gender t;
     Alert.height_cm := Alert.height_cm t;
     Alert.weight_kg := Alert.weight_kg t;
     Alert.spo2 := Alert.spo2 t; Alert.resting_hr := Alert.resting_hr t;
     Alert.sleep_hours := Alert.sleep_hours t;
     Alert.screen_time_hours := Alert.screen_time_hours t;
     Alert.exercise_level := Alert.exercise_level t;
     Alert.smoking := Alert.smoking t; Alert.alcohol := Alert.alcohol t;
     Alert.daily_steps := Alert.daily_steps t;
     Alert.outside_food_per_week := Alert.outside_food_per_week t;
     Alert.tea_coffee_per_day := Alert.tea_coffee_per_day t;
     Alert.diet_type := Alert.diet_type t; Alert.income := Alert.income t;
     Alert.aqi := Alert.aqi t; Alert.commute_hours := Alert.commute_hours t;
     Alert.ac_exposure_hours := Alert.ac_exposure_hours t;
     Alert.heart_score := Alert.heart_score t;
     Alert.metabolic_score := Alert.metabolic_score t;
     Alert.mental_stress_score := Alert.mental_stress_score t;
     Alert.lung_risk_score := Alert.lung_risk_score t;
     Alert.organ_load_score := score |}.

(** A score that Python takes for false: missing, or zero. *)
Definition falsy_score (x : option Q) : Prop :=
  x = None \/ exists v, x = Some v /\ (v == 0)%Q.

(** A string made of whitespace only. *)
Fixpoint all_space (s : string) : bool :=
  match s with
  | EmptyString => true
  | String c s' => is_space c && all_space s'
  end.

(** The summaries that a query of the session sees. *)
Definition summaries (s : Service.Session)
    : list Service.DailyCalorieSummary.t :=
  Service.daily_calorie_summary s ++ Service.new_daily_calorie_summary s.

(** No twin has two summaries for one day. *)
Definition one_summary_per_day (s : Service.Session) : Prop :=
  forall twin_id day,
    (length (List.filter (Service.daily_matches twin_id day) (summaries s))
     <= 1)%nat.

(** The tables as committed. *)
Definition committed (s : Service.Session)
    : list (Z * Alert.Twin) * list Service.MealLog.t
      * list Service.DailyCalorieSummary.t :=
  (Service.twins s, Service.meal_logs s, Service.daily_calorie_summary s).

(** A twin whose height, weight and age are all present. *)
Definition measured (t : Alert.Twin) : Prop :=
  ~ (Alert.height_cm t == 0)%Q /\ ~ (Alert.weight_kg t == 0)%Q /\
  ~ (Alert.age t == 0)%Q.

(** ** Sample worlds and environments *)

Module Sample.

(** A stored twin with the given organ-load score. *)
Definition twin (score : option Q) : Alert.Twin :=
  {| Alert.age := 30; Alert.gender := Some "Male";
     Alert.height_cm := 170; Alert.weight_kg := 70;
     Alert.spo2 := None; Alert.resting_hr := Some 64%Q;
     Alert.sleep_hours := None; Alert.screen_time_hours := None;
     Alert.exercise_level := Some 0%Q; Alert.smoking := None;
     Alert.alcohol := None; Alert.daily_steps := None;
     Alert.outside_food_per_week := None;
     Alert.tea_coffee_per_day := None;
     Alert.diet_type := Some "Non-Veg"; Alert.income := None;
     Alert.aqi := None; Alert.commute_hours := None;
     Alert.ac_exposure_hours := None; Alert.heart_score := None;
     Alert.metabolic_score := None; Alert.mental_stress_score := None;
     Alert.lung_risk_score := None; Alert.organ_load_score := score |}.

Definition nine_twins : list Alert.Twin :=
  [twin None; twin (Some 0.1%Q); twin (Some 0.3%Q); twin (Some 0.45%Q);
   twin (Some 0.5%Q); twin (Some 0.65%Q); twin (Some 0.7%Q);
   twin (Some 0.85%Q); twin (Some 0.9%Q)].

Definition ten_twins : list Alert.Twin := twin (Some 0.2%Q) :: nine_twins.

(** A fresh installation holding the given twins. *)
Definition alert_world (ts : list Alert.Twin) : Alert.World :=
  {| Alert.meta_file := None; Alert.files := ∅; Alert.twins := ts;
     Alert.mlflow_runs := [] |}.

(** A classifier that answers the label rule on the last feature. *)
Definition pipe : Alert.Pipeline :=
  fun x => Alert._build_label (twin (last x)).

(** An environment whose candidates score F1 0.70, 0.85, 0.85 and then
    lower, with accuracies that rank them differently. *)
Definition alert_env : Alert.TrainEnv :=
  {| Alert.XGBOOST_AVAILABLE := false;
     Alert.train_test_split := fun X y =>
       Returns (take 7 X, drop 7 X, take 7 y, drop 7 y);
     Alert.fit_and_score := fun key _ =>
       Returns (pipe,
                (if String.eqb key "logreg" then 0.95 else 0.80)%Q,
                (if String.eqb key "logreg" then 0.70
                 else if String.eqb key "rf" then 0.85
                 else if String.eqb key "gb" then 0.85
                 else 0.60)%Q);
     Alert.utcnow_stamp := fun _ => "20240101-120000";
     Alert.run_id := fun key => ("run-" ++ key)%string;
     Alert.utcnow_iso := "2024-01-01T12:00:07" |}.

Definition alert_record : Alert.ModelRecord :=
  {| Alert.name := "alert_rf_20240101-120000.joblib";
     Alert.path := "models/alert_rf_20240101-120000.joblib";
     Alert.model_type := Some "rf";
     Alert.accuracy := 0.80%Q; Alert.f1_macro := 0.85%Q;
     Alert.mlflow_run_id := Some "run-rf";
     Alert.created_at := "2024-01-01T12:00:07";
     Alert.active := true |}.

Definition regressor : Food.Regressor :=
  fun idx q => (70 * q, 2 * q, 12 * q, 0.5 * q)%Q.

Definition food_env : Food.TrainEnv :=
  {| Food.fitted := regressor; Food.fitted_mae := 0.25%Q;
     Food.utcnow_stamp := "20240101-120000";
     Food.run_id := "run-food";
     Food.utcnow_iso := "2024-01-01T12:00:01" |}.

Definition food_record : Food.FoodRecord :=
  {| Food.name := "food_model_20240101-120000.joblib";
     Food.path := "models_food/food_model_20240101-120000.joblib";
     Food.mae := 0.25%Q; Food.mlflow_run_id := "run-food";
     Food.created_at := "2024-01-01T12:00:01"; Food.active := true |}.

(** The alert world after one training run on ten twins. *)
Definition trained_alert_world : Alert.World :=
  (Alert.retrain_alert_model alert_env (alert_world ten_twins)).2.

(** A fresh installation of the food family. *)
Definition food_world : Food.World :=
  {| Food.meta_file := None; Food.files := ∅; Food.mlflow_runs := [] |}.

Definition idli (q : option Q) : Food.MealItem :=
  {| Food.item_name := Some "idli"; Food.quantity := q |}.

Definition unobtainium : Food.MealItem :=
  {| Food.item_name := Some "unobtainium"; Food.quantity := Some 1%Q |}.

(** A food registry whose active record points at a file that is gone. *)
Definition desynchronized_food_world : Food.World :=
  {| Food.meta_file := Some [food_record]; Food.files := ∅;
     Food.mlflow_runs := [] |}.

(** A food registry whose active record points at an unreadable file. *)
Definition corrupted_food_world : Food.World :=
  {| Food.meta_file := Some [food_record];
     Food.files := {[Food.path food_record := Food.Corrupt]};
     Food.mlflow_runs := [] |}.

(** An alert registry whose active record points at a file that is gone. *)
Definition desynchronized_alert_world : Alert.World :=
  {| Alert.meta_file := Some [alert_record]; Alert.files := ∅;
     Alert.twins := ten_twins; Alert.mlflow_runs := [] |}.

(** An environment in which fitting the third candidate fails. *)
Definition failing_alert_env : Alert.TrainEnv :=
  {| Alert.XGBOOST_AVAILABLE := false;
     Alert.train_test_split := Alert.train_test_split alert_env;
     Alert.fit_and_score := fun key sp =>
       if String.eqb key "gb"
       then Raises (LibraryError "fit did not converge")
       else Alert.fit_and_score alert_env key sp;
     Alert.utcnow_stamp := Alert.utcnow_stamp alert_env;
     Alert.run_id := Alert.run_id alert_env;
     Alert.utcnow_iso := Alert.utcnow_iso alert_env |}.

(** An alert registry whose active record points at an unreadable file. *)
Definition corrupted_alert_world : Alert.World :=
  {| Alert.meta_file := Some [alert_record];
     Alert.files := {[Alert.path alert_record := Alert.Corrupt]};
     Alert.twins := ten_twins; Alert.mlflow_runs := [] |}.

(** A service world with one twin, numbered 7, and no rows yet. *)
Definition service_world (t : Alert.Twin) : Service.World :=
  {| Service.db :=
       {| Service.twins := [(7%Z, t)]; Service.meal_logs := [];
          Service.daily_calorie_summary := [];
          Service.new_meal_logs := [];
          Service.new_daily_calorie_summary := [] |};
     Service.food := food_world |}.

(** An environment whose operations on doubles are exact. *)
Definition service_env : Service.Env :=
  {| Service.today := "2024-01-01"; Service.utcnow := "2024-01-01T08:00:00";
     Service.meal_id := 1; Service.daily_id := 1;
     Service.round := fun x => Qred x;
     Service.food_env := food_env |}.

(** The sample twin without a gender. *)
Definition twin_without_gender : Alert.Twin :=
  {| Alert.age := 30; Alert.gender := None;
     Alert.height_cm := 170; Alert.weight_kg := 70;
     Alert.spo2 := None; Alert.resting_hr := None;
     Alert.sleep_hours := None; Alert.screen_time_hours := None;
     Alert.exercise_level := Some 1%Q; Alert.smoking := None;
     Alert.alcohol := None; Alert.daily_steps := None;
     Alert.outside_food_per_week := None;
     Alert.tea_coffee_per_day := None;
     Alert.diet_type := None; Alert.income := None;
     Alert.aqi := None; Alert.commute_hours := None;
     Alert.ac_exposure_hours := None; Alert.heart_score := None;
     Alert.metabolic_score := None; Alert.mental_stress_score := None;
     Alert.lung_risk_score := None; Alert.organ_load_score := None |}.

(** The sample twin with exercise level 1. *)
Definition twin_level_one : Alert.Twin :=
  {| Alert.age := 30; Alert.gender := Some "Male";
     Alert.height_cm := 170; Alert.weight_kg := 70;
     Alert.spo2 := None; Alert.resting_hr := None;
     Alert.sleep_hours := None; Alert.screen_time_hours := None;
     Alert.exercise_level := Some 1%Q; Alert.smoking := None;
     Alert.alcohol := None; Alert.daily_steps := None;
     Alert.outside_food_per_week := None;
     Alert.tea_coffee_per_day := None;
     Alert.diet_type := None; Alert.income := None;
     Alert.aqi := None; Alert.commute_hours := None;
     Alert.ac_exposure_hours := None; Alert.heart_score := None;
     Alert.metabolic_score := None; Alert.mental_stress_score := None;
     Alert.lung_risk_score := None; Alert.organ_load_score := None |}.

End Sample.

(** * Properties *)

(** ** Running the monad *)

Lemma bind_returns {W A B} (c : M W A) (k : A -> M W B) w b w' :
  Py.bind c k w = (Returns b, w') ->
  exists a w1, c w = (Returns a, w1) /\ k a w1 = (Returns b, w').
Proof.
  unfold Py.bind. destruct (c w) as [[a|e] w1]; intros H.
  - exists a, w1. by split.
  - discriminate H.
Qed.

Lemma bind_run {W A B} (c : M W A) (k : A -> M W B) w a w1 :
  c w = (Returns a, w1) -> Py.bind c k w = k a w1.
Proof. unfold Py.bind. by intros ->. Qed.

Lemma bind_raises {W A B} (c : M W A) (k : A -> M W B) w e w1 :
  c w = (Raises e, w1) -> Py.bind c k w = (Raises e, w1).
Proof. unfold Py.bind. by intros ->. Qed.

(** ** The registry document *)

Section AlertStore.
Import Alert.

Lemma alert_registry_ensured w : registry (ensured w) = registry w.
Proof.
  unfold ensured, registry.
  destruct (meta_file w) eqn:E; cbn; by rewrite ?E.
Qed.

Lemma alert_meta_ensured w : meta_file (ensured w) = Some (registry w).
Proof.
  unfold ensured, registry.
  destruct (meta_file w) eqn:E; cbn; by rewrite ?E.
Qed.


Lemma alert_ensure_dirs w : _ensure_dirs w = (Returns tt, ensured w).
Proof. unfold _ensure_dirs, ensured. by destruct (meta_file w). Qed.

Lemma alert_load_meta w : _load_meta w = (Returns (registry w), ensured w).
Proof.
  unfold _load_meta. rewrite (bind_run _ _ _ _ _ (alert_ensure_dirs w)).
  unfold Py.bind, get. by rewrite alert_meta_ensured.
Qed.

Lemma alert_bakeoff_meta env sp keys b w :
  meta_file (bakeoff env sp keys b w).2 = meta_file w.
Proof.
  revert b w. induction keys as [|key rest IH]; intros b w; [done|].
  cbn [bakeoff]. unfold Py.bind, modify, lift.
  destruct (fit_and_score env key sp) as [[[pipe acc] f1]|e]; cbn; [|done].
  by rewrite IH.
Qed.
End AlertStore.

Section FoodStore.
Import Food.

Lemma food_registry_ensured w : registry (ensured w) = registry w.
Proof.
  unfold ensured, registry.
  destruct (meta_file w) eqn:E; cbn; by rewrite ?E.
Qed.

Lemma food_meta_ensured w : meta_file (ensured w) = Some (registry w).
Proof.
  unfold ensured, registry.
  destruct (meta_file w) eqn:E; cbn; by rewrite ?E.
Qed.


Lemma food_ensure_dirs w : _ensure_food_dirs w = (Returns tt, ensured w).
Proof. unfold _ensure_food_dirs, ensured. by destruct (meta_file w). Qed.

Lemma food_load_meta w :
  _load_food_meta w = (Returns (registry w), ensured w).
Proof.
  unfold _load_food_meta.
  rewrite (bind_run _ _ _ _ _ (food_ensure_dirs w)).
  unfold Py.bind, get. by rewrite food_meta_ensured.
Qed.
End FoodStore.

(** ** One training run *)

Section AlertRun.
Import Alert.

Lemma alert_load_training_data w :
  _load_training_data_from_db w =
    (if (length (twins w) <? 10)%nat
     then Raises (ValueError "Not enough twins to train model.")
     else build_rows (twins w), w).
Proof.
  unfold _load_training_data_from_db, Py.bind, get.
  by destruct (length (twins w) <? 10)%nat.
Qed.

Lemma alert_bakeoff_twins env sp keys b w :
  twins (bakeoff env sp keys b w).2 = twins w.
Proof.
  revert b w. induction keys as [|key rest IH]; intros b w; [done|].
  cbn [bakeoff]. unfold Py.bind, modify, lift.
  destruct (fit_and_score env key sp) as [[[pipe acc] f1]|e]; cbn; [|done].
  by rewrite IH.
Qed.

(** A run that returns went through every stage, and its only write to
    the document is the promotion. *)
Lemma alert_retrain_inv env w s w' :
  retrain_alert_model env w = (Returns s, w') ->
  exists X y sp b p w1,
    (10 <= length (twins w))%nat /\
    build_rows (twins w) = Returns (X, y) /\
    train_test_split env X y = Returns sp /\
    bakeoff env sp (models env) initial_best (ensured w) = (Returns b, w1) /\
    best_model_path b = Some p /\
    s = summary_of b p /\
    w' = with_meta w1 ((set_active false <$> registry w) ++ [new_record env b p]).
Proof.
  unfold retrain_alert_model. intros H.
  rewrite (bind_run _ _ _ _ _ (alert_ensure_dirs w)) in H.
  apply bind_returns in H as ([X y] & w0 & Hdata & H).
  rewrite alert_load_training_data in Hdata.
  assert (twins (ensured w) = twins w) as Htw.
  { unfold ensured. by destruct (meta_file w). }
  rewrite Htw in Hdata.
  destruct (length (twins w) <? 10)%nat eqn:Hlen; [done|].
  apply Nat.ltb_ge in Hlen. injection Hdata as Hrows <-.
  apply bind_returns in H as (sp & w0 & Hsp & H).
  unfold lift in Hsp. injection Hsp as Hsp <-.
  apply bind_returns in H as (b & w1 & Hb & H).
  rewrite (bind_run _ _ _ _ _ (alert_load_meta w1)) in H.
  pose proof (alert_bakeoff_meta env sp (models env) initial_best (ensured w)) as Hm.
  rewrite Hb in Hm. cbn in Hm. rewrite alert_meta_ensured in Hm.
  assert (registry w1 = registry w) as Hreg by (unfold registry; by rewrite Hm).
  assert (ensured w1 = w1) as Hens by (unfold ensured; by rewrite Hm).
  rewrite Hreg, Hens in H.
  destruct (best_model_path b) as [p|] eqn:Hp; [|done].
  unfold Py.bind, _save_meta, modify, ret in H. injection H as <- <-.
  by exists X, y, sp, b, p, w1.
Qed.

Lemma alert_retrain_registry env w s w' :
  retrain_alert_model env w = (Returns s, w') ->
  exists m,
    registry w' = (set_active false <$> registry w) ++ [m] /\
    active m = true /\ path m = model_path s.
Proof.
  intros (X & y & sp & b & p & w1 & _ & _ & _ & _ & _ & -> & ->)%alert_retrain_inv.
  by exists (new_record env b p).
Qed.
End AlertRun.

Section FoodRun.
Import Food.

(** The food run has no failure mode of its own. *)
Lemma food_retrain_run env w :
  retrain_food_model env w =
    (Returns
       {| status := "trained_food_model"; summary_mae := fitted_mae env;
          model_path := model_path_of env; summary_run_id := run_id env |},
     {| meta_file := Some ((set_active false <$> registry w) ++ [new_record env]);
        files := <[model_path_of env := Joblib (fitted env)]> (files w);
        mlflow_runs := mlflow_runs w ++ ["food_calorie_model"] |}).
Proof.
  unfold retrain_food_model.
  rewrite (bind_run _ _ _ _ _ (food_ensure_dirs w)).
  unfold Py.bind at 1, modify at 1. unfold Py.bind at 1, modify at 1.
  rewrite (bind_run _ _ _ _ _ (food_load_meta _)).
  unfold Py.bind, _save_food_meta, modify, ret, with_meta, with_file, with_run.
  cbn. unfold registry, ensured.
  destruct (meta_file w) eqn:E; cbn; rewrite ?E; reflexivity.
Qed.
End FoodRun.

(** ** The promotion step *)

Section Promotion.
Context {fam : family}.
Implicit Types (r : list (record fam)) (m : record fam).

Lemma deactivate_inactive m : is_active (deactivate m) = false.
Proof. by destruct fam. Qed.

Lemma deactivate_idem m : deactivate (deactivate m) = deactivate m.
Proof. by destruct fam. Qed.

Lemma filter_deactivated r : List.filter is_active (deactivate <$> r) = [].
Proof.
  induction r as [|m r IH]; [done|].
  cbn. by rewrite deactivate_inactive.
Qed.

Lemma promoted_filter r m :
  is_active m = true ->
  List.filter is_active ((deactivate <$> r) ++ [m]) = [m].
Proof.
  intros Hm. rewrite List.filter_app, filter_deactivated. cbn. by rewrite Hm.
Qed.

Lemma promoted_lookup r m i m0 :
  r !! i = Some m0 ->
  ((deactivate <$> r) ++ [m]) !! i = Some (deactivate m0).
Proof.
  intros Hi. rewrite lookup_app_l.
  - by rewrite list_lookup_fmap, Hi.
  - rewrite length_fmap. by eapply lookup_lt_Some.
Qed.

Lemma trained_shape r r' :
  trained fam r r' ->
  exists m, r' = (deactivate <$> r) ++ [m] /\ is_active m = true.
Proof.
  destruct fam; cbn.
  - intros (env & w & s & w' & <- & Hrun & <-).
    apply alert_retrain_registry in Hrun as (m & -> & Hm & _). by exists m.
  - intros (env & w & s & w' & <- & Hrun & <-).
    rewrite food_retrain_run in Hrun. injection Hrun as _ <-.
    by exists (Food.new_record env).
Qed.
End Promotion.

(** C1. After every sequence of one or more successful training runs of a
    family, its registry holds exactly one active record, which is the
    last one; the registry has grown by one record per run, and every
    record that was there before differs from its old self in the
    [active] field only, which is now false. *)
Theorem single_active_after_training
    (fam : family) (r0 r : list (record fam)) (n : nat) :
  after_runs fam r0 n r -> (0 < n)%nat ->
  length r = (length r0 + n)%nat /\
  (exists m, last r = Some m /\ is_active m = true /\
             List.filter is_active r = [m]) /\
  (forall i m0, r0 !! i = Some m0 -> r !! i = Some (deactivate m0)).
Proof.
  intros Hruns Hn.
  assert (length r = (length r0 + n)%nat /\
          (n = 0%nat -> r = r0) /\
          ((0 < n)%nat ->
           (exists m, last r = Some m /\ is_active m = true /\
                      List.filter is_active r = [m]) /\
           (forall i m0, r0 !! i = Some m0 -> r !! i = Some (deactivate m0))))
    as (Hlen & _ & Hpos); [|by destruct (Hpos Hn)].
  clear Hn. induction Hruns as [|n r r' _ (IHlen & IHzero & IHpos) Hstep].
  { repeat split; [lia | lia | lia]. }
  apply trained_shape in Hstep as (m & -> & Hm).
  split; [|split; [lia|intros _; split]].
  - rewrite length_app, length_fmap. cbn. lia.
  - exists m. by rewrite last_snoc, promoted_filter.
  - intros i m0 Hi. destruct n as [|n].
    + rewrite (IHzero eq_refl). by apply promoted_lookup.
    + destruct IHpos as [_ IH]; [lia|].
      rewrite (promoted_lookup _ _ _ _ (IH _ _ Hi)).
      by rewrite deactivate_idem.
Qed.

Lemma sample_alert_run :
  exists w',
    Alert.retrain_alert_model Sample.alert_env
      (Sample.alert_world Sample.ten_twins)
    = (Returns (Alert.summary_of
                  {| Alert.best_model_path := Some (Alert.path Sample.alert_record);
                     Alert.best_f1 := 0.85%Q; Alert.best_acc := 0.80%Q;
                     Alert.best_key := Some "rf";
                     Alert.best_run := Some "run-rf" |}
                  (Alert.path Sample.alert_record)), w')
    /\ Alert.registry w' = [Sample.alert_record].
Proof. eexists. split; vm_compute; reflexivity. Qed.

Lemma sample_food_run :
  exists s w',
    Food.retrain_food_model Sample.food_env Sample.food_world = (Returns s, w')
    /\ Food.registry w' = [Sample.food_record].
Proof. do 2 eexists. split; vm_compute; reflexivity. Qed.

Lemma single_active_after_training_witness :
  (exists m, last [Sample.alert_record] = Some m /\ Alert.active m = true /\
             List.filter Alert.active [Sample.alert_record] = [m]) /\
  (exists m, last [Sample.food_record] = Some m /\ Food.active m = true /\
             List.filter Food.active [Sample.food_record] = [m]).
Proof.
  split.
  - apply (single_active_after_training alert [] [Sample.alert_record] 1);
      [|lia].
    apply (runs_more alert [] 0 []); [constructor|].
    destruct sample_alert_run as (w' & Hrun & Hreg).
    by eexists _, (Sample.alert_world Sample.ten_twins), _, w'.
  - apply (single_active_after_training food [] [Sample.food_record] 1);
      [|lia].
    apply (runs_more food [] 0 []); [constructor|].
    destruct sample_food_run as (s & w' & Hrun & Hreg).
    by eexists _, Sample.food_world, s, w'.
Defined.

(** ** Labels *)

Lemma Qltb_lt x y : Qltb x y = true <-> (x < y)%Q.
Proof. unfold Qltb, Qlt. apply Z.ltb_lt. Qed.

Lemma Qltb_ge x y : Qltb x y = false <-> (y <= x)%Q.
Proof. unfold Qltb, Qle. apply Z.ltb_ge. Qed.

Lemma thresholds_increase : (Alert.f0_4 < Alert.f0_6 /\ Alert.f0_6 < Alert.f0_8)%Q.
Proof. split; reflexivity. Qed.

(** Below one threshold is below the next. *)
Lemma Qltb_mono x a b : (a < b)%Q -> Qltb x a = true -> Qltb x b = true.
Proof.
  rewrite !Qltb_lt. intros Hab Hxa. by apply Qlt_trans with a.
Qed.

Lemma build_label_range t : (0 <= Alert._build_label t <= 3)%Z.
Proof.
  unfold Alert._build_label.
  repeat match goal with |- context [if ?b then _ else _] => destruct b end; lia.
Qed.

(** C7 fails as stated: a twin whose score is the threshold 0.4 itself
    exceeds no threshold, and is labelled 1. *)
Lemma label_at_threshold_counterexample :
  organ_load (Sample.twin (Some Alert.f0_4)) = Alert.f0_4 /\
  thresholds_exceeded (organ_load (Sample.twin (Some Alert.f0_4))) = 0%Z /\
  Alert._build_label (Sample.twin (Some Alert.f0_4)) = 1%Z /\
  Alert._build_label (Sample.twin (Some Alert.f0_4))
    <> thresholds_exceeded (organ_load (Sample.twin (Some Alert.f0_4))).
Proof. repeat split; vm_compute; congruence. Qed.

(** C7, amended. The training label of a stored entity is the number of
    thresholds among 0.4, 0.6, 0.8 that its organ-load score (0.0 when the
    score is missing) reaches or exceeds, a value in {0,1,2,3}: a score
    equal to a threshold counts that threshold. *)
Theorem label_counts_thresholds_reached (t : Alert.Twin) :
  Alert._build_label t = thresholds_reached (organ_load t) /\
  (0 <= Alert._build_label t <= 3)%Z.
Proof.
  split; [|apply build_label_range].
  destruct thresholds_increase as [H46 H68].
  unfold Alert._build_label, thresholds_reached, thresholds, organ_load.
  set (ol := or_default _ _). cbn [List.filter].
  destruct (Qltb ol Alert.f0_4) eqn:H4.
  - rewrite (Qltb_mono _ _ _ H46 H4).
    by rewrite (Qltb_mono _ _ _ H68 (Qltb_mono _ _ _ H46 H4)).
  - destruct (Qltb ol Alert.f0_6) eqn:H6.
    + by rewrite (Qltb_mono _ _ _ H68 H6).
    + by destruct (Qltb ol Alert.f0_8).
Qed.

(** ** Reading the active record *)

Section LastActive.
Context {A : Type} (f : A -> bool).

Lemma find_rev_last_filter (l : list A) :
  List.find f (rev l) = last (List.filter f l).
Proof.
  induction l as [|x l IH] using rev_ind; [done|].
  rewrite rev_unit, List.filter_app. cbn.
  destruct (f x); [by rewrite last_snoc|].
  by rewrite app_nil_r.
Qed.

Lemma last_filter_split (l : list A) :
  match last (List.filter f l) with
  | Some m => exists before after,
      l = before ++ m :: after /\ f m = true /\
      Forall (fun x => f x = false) after
  | None => Forall (fun x => f x = false) l
  end.
Proof.
  induction l as [|x l IH] using rev_ind; [by constructor|].
  rewrite List.filter_app. cbn. destruct (f x) eqn:Hx.
  - rewrite last_snoc. by exists l, [].
  - rewrite app_nil_r. destruct (last (List.filter f l)) as [m|].
    + destruct IH as (before & after & -> & Hm & Hafter).
      exists before, (after ++ [x]). split; [by rewrite <- app_assoc|].
      split; [done|]. apply Forall_app. split; [done|]. by constructor.
    + apply Forall_app. split; [done|]. by constructor.
Qed.
End LastActive.

(** C8. Whatever the registry document holds, also several active
    records, the accessors return without raising: the record accessor
    returns the active record that comes last in insertion order, or
    nothing when no record is active, and the path accessors of both
    families return the path of that same record. *)
Theorem get_active_returns_last_active
    (wa : Alert.World) (wf : Food.World) :
  (exists o : option (record alert),
     Alert.get_active_model_info wa = (Returns o, Alert.ensured wa) /\
     Alert.get_active_model_path wa
       = (Returns (Alert.path <$> o), Alert.ensured wa) /\
     last_active (fam := alert) (Alert.registry wa) o) /\
  (exists o : option (record food),
     Food.get_active_food_model_path wf
       = (Returns (Food.path <$> o), Food.ensured wf) /\
     last_active (fam := food) (Food.registry wf) o).
Proof.
  split.
  - exists (last (List.filter Alert.active (Alert.registry wa))).
    unfold Alert.get_active_model_info, Alert.get_active_model_path.
    rewrite !(bind_run _ _ _ _ _ (alert_load_meta wa)).
    rewrite find_rev_last_filter. repeat split.
    apply (last_filter_split Alert.active).
  - exists (last (List.filter Food.active (Food.registry wf))).
    unfold Food.get_active_food_model_path.
    rewrite (bind_run _ _ _ _ _ (food_load_meta wf)).
    split; [|apply (last_filter_split Food.active)].
    by destruct (last _).
Qed.

(** ** The bake-off *)

Section Bakeoff.
Import Alert.
Context (env : TrainEnv).

(** The loop is a left fold of [update_best] over the evaluations. *)
Lemma bakeoff_fold sp keys b w :
  match bakeoff env sp keys b w with
  | (Returns b', _) =>
      exists evs, evaluations env sp keys = Returns evs /\
                  b' = fold_left (pick env) evs b
  | (Raises e, _) => evaluations env sp keys = Raises e
  end.
Proof.
  revert b w. induction keys as [|key rest IH]; intros b w.
  { by exists []. }
  cbn [bakeoff evaluations]. unfold Py.bind, modify, lift, evaluate.
  destruct (fit_and_score env key sp) as [[[pipe acc] f1]|e]; [|done].
  match goal with |- context [bakeoff env sp rest ?b1 ?w1] =>
    specialize (IH b1 w1); destruct (bakeoff env sp rest b1 w1) as [[b'|e] w']
  end.
  - destruct IH as (evs & -> & ->). by eexists.
  - by rewrite IH.
Qed.

Lemma bakeoff_total sp keys b w :
  (forall key, exists r, fit_and_score env key sp = Returns r) ->
  exists b' w', bakeoff env sp keys b w = (Returns b', w').
Proof.
  intros Hfit. revert b w. induction keys as [|key rest IH]; intros b w.
  { by exists b, w. }
  cbn [bakeoff]. unfold Py.bind, modify, lift.
  destruct (Hfit key) as [[[pipe acc] f1] ->]. apply IH.
Qed.

(** Either nothing beats the incumbent, or the fold ends on the first
    evaluation of highest F1, which beats the incumbent. *)
Lemma fold_pick evs b :
  (Forall (fun x => (ev_f1 x <= best_f1 b)%Q) evs /\
   fold_left (pick env) evs b = b) \/
  (exists ev, wins evs ev /\ (best_f1 b < ev_f1 ev)%Q /\
              fold_left (pick env) evs b = chosen env ev).
Proof.
  revert b. induction evs as [|x evs IH]; intros b; [by left|].
  cbn [fold_left]. unfold pick at 2 4, update_best.
  destruct (Qltb (best_f1 b) (ev_f1 x)) eqn:Hx.
  - apply Qltb_lt in Hx. right. fold (chosen env x).
    destruct (IH (chosen env x)) as [[Hall ->]|(ev & Hwin & Hlt & ->)].
    + exists x. split; [|done]. by exists [], evs.
    + exists ev. cbn in Hlt. split; [|split; [by eapply Qlt_trans|done]].
      destruct Hwin as (before & after & -> & Hb & Ha).
      exists (x :: before), after. repeat split; [|done]. by constructor.
  - apply Qltb_ge in Hx.
    destruct (IH b) as [[Hall ->]|(ev & Hwin & Hlt & ->)].
    + left. split; [by constructor|done].
    + right. exists ev. split; [|done].
      destruct Hwin as (before & after & -> & Hb & Ha).
      exists (x :: before), after. repeat split; [|done].
      constructor; [|done]. by eapply Qle_lt_trans.
Qed.

Lemma evaluations_keys sp keys evs :
  evaluations env sp keys = Returns evs -> ev_key <$> evs = keys.
Proof.
  revert evs. induction keys as [|key rest IH]; intros evs; cbn.
  { by intros [= <-]. }
  unfold evaluate.
  destruct (fit_and_score env key sp) as [[[pipe acc] f1]|e]; [|done].
  destruct (evaluations env sp rest) as [evs'|e]; [|done].
  intros [= <-]. cbn. by rewrite (IH evs').
Qed.
End Bakeoff.

Lemma Qltb_proper x x' y y' :
  (x == x')%Q -> (y == y')%Q -> Qltb x y = Qltb x' y'.
Proof.
  intros Hx Hy. destruct (Qltb x' y') eqn:H.
  - apply Qltb_lt. apply Qltb_lt in H. by rewrite Hx, Hy.
  - apply Qltb_ge. apply Qltb_ge in H. by rewrite Hx, Hy.
Qed.

(** The key that the fold ends on is a function of the keys and F1 scores
    alone. *)
Lemma fold_pick_ignores_accuracy env1 env2 evs1 evs2 b1 b2 :
  Forall2 same_f1 evs1 evs2 ->
  Alert.best_key b1 = Alert.best_key b2 ->
  (Alert.best_f1 b1 == Alert.best_f1 b2)%Q ->
  Alert.best_key (fold_left (pick env1) evs1 b1)
  = Alert.best_key (fold_left (pick env2) evs2 b2).
Proof.
  intros Hevs. revert b1 b2.
  induction Hevs as [|x1 x2 evs1 evs2 [Hk Hf] _ IH]; intros b1 b2 Hkey Hf1;
    [done|].
  cbn [fold_left]. apply IH; unfold pick, Alert.update_best;
    rewrite (Qltb_proper _ _ _ _ Hf1 Hf);
    destruct (Qltb (Alert.best_f1 b2) (ev_f1 x2)); cbn; congruence.
Qed.

(** C4. A bake-off that completes evaluated the roster in its order and
    selected the candidate of highest macro-F1, the first evaluated among
    those that tie for it; the summary carries that candidate's F1 and
    accuracy.  Any other completed bake-off whose candidates have the same
    F1 scores selects the same candidate, whatever their accuracies. *)
Theorem bakeoff_selects_first_highest_f1
    (env : Alert.TrainEnv) (w : Alert.World) (s : Alert.Summary)
    (w' : Alert.World) :
  Alert.retrain_alert_model env w = (Returns s, w') ->
  exists evs ev,
    bakeoff_scores env w = Returns evs /\
    ev_key <$> evs = Alert.models env /\
    wins evs ev /\
    Alert.best_model s = Some (ev_key ev) /\
    Alert.summary_f1_macro s = ev_f1 ev /\
    Alert.summary_accuracy s = ev_acc ev /\
    forall env2 w2 s2 w2' evs2,
      Alert.retrain_alert_model env2 w2 = (Returns s2, w2') ->
      bakeoff_scores env2 w2 = Returns evs2 ->
      Forall2 same_f1 evs evs2 ->
      Alert.best_model s2 = Some (ev_key ev).
Proof.
  intros (X & y & sp & b & p & w1 & _ & Hrows & Hsp & Hb & Hp & -> & _)%alert_retrain_inv.
  pose proof (bakeoff_fold env sp (Alert.models env) Alert.initial_best
                (Alert.ensured w)) as Hfold.
  rewrite Hb in Hfold. destruct Hfold as (evs & Hevs & ->).
  destruct (fold_pick env evs Alert.initial_best)
    as [[_ Hsame]|(ev & Hwin & _ & Hfold)].
  { by rewrite Hsame in Hp. }
  exists evs, ev. unfold bakeoff_scores. rewrite Hrows, Hsp.
  split; [done|]. split; [by eapply evaluations_keys|]. split; [done|].
  cbn. rewrite Hfold. cbn. repeat split.
  intros env2 w2 s2 w2' evs2 Hrun2 Hevs2 Hsame.
  apply alert_retrain_inv in Hrun2
    as (X2 & y2 & sp2 & b2 & p2 & w3 & _ & Hrows2 & Hsp2 & Hb2 & _ & -> & _).
  assert (evaluations env2 sp2 (Alert.models env2) = Returns evs2) as Hevs2''.
  { revert Hevs2. unfold bakeoff_scores. by rewrite Hrows2, Hsp2. }
  clear Hevs2.
  pose proof (bakeoff_fold env2 sp2 (Alert.models env2) Alert.initial_best
                (Alert.ensured w2)) as Hfold2.
  rewrite Hb2 in Hfold2. destruct Hfold2 as (evs2' & Hevs2' & ->).
  rewrite Hevs2'' in Hevs2'. injection Hevs2' as <-. cbn.
  rewrite <- (fold_pick_ignores_accuracy env env2 evs evs2
                Alert.initial_best Alert.initial_best Hsame eq_refl);
    [|reflexivity].
  by rewrite Hfold.
Qed.

Lemma bakeoff_selects_first_highest_f1_witness :
  exists evs ev,
    bakeoff_scores Sample.alert_env (Sample.alert_world Sample.ten_twins)
      = Returns evs /\
    wins evs ev /\ Some "rf" = Some (ev_key ev).
Proof.
  destruct sample_alert_run as (w' & Hrun & _).
  destruct (bakeoff_selects_first_highest_f1 _ _ _ _ Hrun)
    as (evs & ev & Hevs & _ & Hwin & Hkey & _).
  by exists evs, ev.
Defined.

(** ** The data-sufficiency gate *)

Section Gate.
Import Alert.

Lemma build_rows_total ts :
  Forall measurable ts ->
  exists X y, build_rows ts = Returns (X, y) /\
              length X = length ts /\ length y = length ts.
Proof.
  induction 1 as [|t ts [x Hx] _ (X & y & IH & HX & Hy)]; cbn.
  { by exists [], []. }
  rewrite Hx, IH. exists (x :: X), (_build_label t :: y). cbn.
  by rewrite HX, Hy.
Qed.

Lemma evaluations_scores env sp keys evs :
  evaluations env sp keys = Returns evs ->
  Forall (fun ev => exists pipe,
            fit_and_score env (ev_key ev) sp
            = Returns (pipe, ev_acc ev, ev_f1 ev)) evs.
Proof.
  revert evs. induction keys as [|key rest IH]; intros evs; cbn.
  { intros [= <-]. constructor. }
  unfold evaluate.
  destruct (fit_and_score env key sp) as [[[pipe acc] f1]|e] eqn:Hfit; [|done].
  destruct (evaluations env sp rest) as [evs'|e]; [|done].
  intros [= <-]. constructor; [by exists pipe|by apply IH].
Qed.

Lemma ensured_twins w : twins (ensured w) = twins w.
Proof. unfold ensured. by destruct (meta_file w). Qed.

Lemma ensured_files w : files (ensured w) = files w.
Proof. unfold ensured. by destruct (meta_file w). Qed.

Lemma ensured_runs w : mlflow_runs (ensured w) = mlflow_runs w.
Proof. unfold ensured. by destruct (meta_file w). Qed.

(** With enough measurable twins and libraries that answer, a run
    returns. *)
Lemma alert_retrain_total env w :
  (10 <= length (twins w))%nat ->
  Forall measurable (twins w) ->
  libraries_succeed env ->
  exists s w', retrain_alert_model env w = (Returns s, w').
Proof.
  intros Hlen Hmeas [Hsplit Hfit].
  destruct (build_rows_total _ Hmeas) as (X & y & Hrows & _).
  destruct (Hsplit X y) as [sp Hsp].
  destruct (bakeoff_total env sp (models env) initial_best (ensured w))
    as (b & w1 & Hb).
  { intros key. destruct (Hfit key sp) as (pipe & acc & f1 & -> & _).
    by eexists. }
  pose proof (bakeoff_fold env sp (models env) initial_best (ensured w))
    as Hfold.
  rewrite Hb in Hfold. destruct Hfold as (evs & Hevs & Hbest).
  assert (exists p, best_model_path b = Some p) as [p Hp].
  { destruct (fold_pick env evs initial_best)
      as [[Hall _]|(ev & _ & _ & Hch)].
    - pose proof (evaluations_keys _ _ _ _ Hevs) as Hkeys.
      pose proof (evaluations_scores _ _ _ _ Hevs) as Hscores.
      destruct evs as [|ev evs]; [done|].
      apply Forall_cons in Hall as [Hle _].
      apply Forall_cons in Hscores as [[pipe Hev] _].
      destruct (Hfit (ev_key ev) sp) as (pipe' & acc & f1 & Hev' & Hpos).
      rewrite Hev in Hev'. injection Hev' as _ _ <-.
      exfalso. cbn in Hle.
      apply (Qlt_irrefl (-1)%Q). eapply Qlt_le_trans; [|exact Hle].
      eapply Qlt_le_trans; [|exact Hpos]. reflexivity.
    - rewrite Hbest, Hch. by eexists. }
  unfold retrain_alert_model.
  rewrite (bind_run _ _ _ _ _ (alert_ensure_dirs w)).
  rewrite (bind_run _ _ (ensured w) (X, y) (ensured w)).
  2:{ rewrite alert_load_training_data, ensured_twins, Hrows.
      by apply Nat.ltb_ge in Hlen as ->. }
  rewrite (bind_run _ _ (ensured w) sp (ensured w));
    [|unfold lift; by rewrite Hsp].
  rewrite (bind_run _ _ _ _ _ Hb).
  rewrite (bind_run _ _ _ _ _ (alert_load_meta w1)).
  rewrite Hp. unfold Py.bind, _save_meta, modify, ret. by eexists _, _.
Qed.
End Gate.

(** C3. With fewer than 10 stored twins a training run raises the
    insufficient-data error before anything is fitted: no tracker run is
    started, no artifact is written, and the registry reads as before,
    with the same records and the same active record.  With exactly 10
    measurable twins the data set of 10 rows is built, and the run goes
    on to promote a new record whenever the libraries answer. *)
Theorem data_sufficiency_gate (env : Alert.TrainEnv) (w : Alert.World) :
  ((length (Alert.twins w) < 10)%nat ->
   exists w',
     Alert.retrain_alert_model env w
       = (Raises (ValueError "Not enough twins to train model."), w') /\
     Alert.registry w' = Alert.registry w /\
     Alert.files w' = Alert.files w /\
     Alert.mlflow_runs w' = Alert.mlflow_runs w /\
     (Alert.get_active_model_info w').1 = (Alert.get_active_model_info w).1) /\
  (length (Alert.twins w) = 10%nat ->
   Forall measurable (Alert.twins w) ->
   libraries_succeed env ->
   exists X y s w',
     Alert._load_training_data_from_db w = (Returns (X, y), w) /\
     length X = 10%nat /\ length y = 10%nat /\
     Alert.retrain_alert_model env w = (Returns s, w') /\
     length (Alert.registry w') = S (length (Alert.registry w))).
Proof.
  split.
  - intros Hlen. exists (Alert.ensured w).
    rewrite alert_registry_ensured, ensured_files, ensured_runs.
    repeat split.
    + unfold Alert.retrain_alert_model.
      rewrite (bind_run _ _ _ _ _ (alert_ensure_dirs w)).
      apply bind_raises.
      rewrite alert_load_training_data, ensured_twins.
      by apply Nat.ltb_lt in Hlen as ->.
    + unfold Alert.get_active_model_info.
      rewrite !(bind_run _ _ _ _ _ (alert_load_meta _)).
      by rewrite alert_registry_ensured.
  - intros Hlen Hmeas Hlibs.
    destruct (build_rows_total _ Hmeas) as (X & y & Hrows & HX & Hy).
    destruct (alert_retrain_total env w) as (s & w' & Hrun);
      [lia|done|done|].
    exists X, y, s, w'. rewrite alert_load_training_data, Hrows, HX, Hy, Hlen.
    repeat split; [done|].
    apply alert_retrain_registry in Hrun as (m & -> & _).
    rewrite length_app, length_fmap. cbn. lia.
Qed.

Lemma sample_twins_measurable : Forall measurable Sample.ten_twins.
Proof. repeat constructor; eexists; vm_compute; reflexivity. Qed.

Lemma sample_libraries_succeed : libraries_succeed Sample.alert_env.
Proof.
  split; [intros X y; by eexists|].
  intros key sp. eexists _, _, _. split; [reflexivity|].
  by repeat destruct (String.eqb key _).
Qed.

Lemma data_sufficiency_gate_witness :
  (exists w',
     Alert.retrain_alert_model Sample.alert_env
       (Sample.alert_world Sample.nine_twins)
     = (Raises (ValueError "Not enough twins to train model."), w') /\
     Alert.registry w' = []) /\
  (exists s w',
     Alert.retrain_alert_model Sample.alert_env
       (Sample.alert_world Sample.ten_twins) = (Returns s, w') /\
     length (Alert.registry w') = 1%nat).
Proof.
  split.
  - destruct (proj1 (data_sufficiency_gate Sample.alert_env
                       (Sample.alert_world Sample.nine_twins)))
      as (w' & Hrun & Hreg & _); [cbn; lia|].
    by exists w'.
  - destruct (proj2 (data_sufficiency_gate Sample.alert_env
                       (Sample.alert_world Sample.ten_twins)))
      as (X & y & s & w' & _ & _ & _ & Hrun & Hlen);
      [reflexivity|apply sample_twins_measurable
      |apply sample_libraries_succeed|].
    by exists s, w'.
Defined.

(** ** Alert prediction *)

Lemma last_filter_of_split {A} (f : A -> bool) (l before after : list A) m :
  l = before ++ m :: after -> f m = true ->
  Forall (fun x => f x = false) after ->
  last (List.filter f l) = Some m.
Proof.
  intros -> Hm Hafter. rewrite List.filter_app. cbn. rewrite Hm.
  assert (List.filter f after = []) as ->.
  { induction Hafter as [|x after Hx _ IH]; [done|]. cbn. by rewrite Hx. }
  apply last_snoc.
Qed.

Lemma filter_none {A} (f : A -> bool) (l : list A) :
  Forall (fun x => f x = false) l -> List.filter f l = [].
Proof. induction 1 as [|x l Hx _ IH]; [done|]. cbn. by rewrite Hx. Qed.

Lemma alert_active_path w :
  Alert.get_active_model_path w
  = (Returns (Alert.path <$> last (List.filter Alert.active (Alert.registry w))),
     Alert.ensured w).
Proof.
  unfold Alert.get_active_model_path.
  by rewrite (bind_run _ _ _ _ _ (alert_load_meta w)).
Qed.

Lemma alert_load w p :
  Alert.load p w
  = (match Alert.files w !! p with
     | None => Raises (FileNotFoundError p)
     | Some Alert.Corrupt => Raises (UnpicklingError p)
     | Some (Alert.Joblib pipe) => Returns pipe
     end, w).
Proof.
  unfold Alert.load, Py.bind, get.
  by destruct (Alert.files w !! p) as [[pipe|]|].
Qed.





(** ** Food prediction: loading the active model *)

Section FoodLoad.
Import Food.
Context (env : TrainEnv).

Lemma food_active_path w :
  get_active_food_model_path w
  = (Returns (path <$> last (List.filter active (registry w))), ensured w).
Proof.
  unfold get_active_food_model_path.
  rewrite (bind_run _ _ _ _ _ (food_load_meta w)).
  by destruct (last _).
Qed.

Lemma food_load w p :
  load p w
  = (match files w !! p with
     | None => Raises (FileNotFoundError p)
     | Some Corrupt => Raises (UnpicklingError p)
     | Some (Joblib model) => Returns model
     end, w).
Proof.
  unfold load, Py.bind, get. by destruct (files w !! p) as [[model|]|].
Qed.

Lemma food_ensured_files w : files (ensured w) = files w.
Proof. unfold ensured. by destruct (meta_file w). Qed.

Lemma food_ensured_runs w : mlflow_runs (ensured w) = mlflow_runs w.
Proof. unfold ensured. by destruct (meta_file w). Qed.

Lemma food_retrain_bootstrapped w :
  retrain_food_model env (ensured w)
  = (Returns {| status := "trained_food_model";
                summary_mae := fitted_mae env;
                model_path := model_path_of env;
                summary_run_id := run_id env |},
     bootstrapped env w).
Proof.
  rewrite food_retrain_run. unfold bootstrapped.
  by rewrite food_registry_ensured, food_ensured_files, food_ensured_runs.
Qed.

(** The training branch: one run, then the new artifact is loaded. *)
Lemma food_bootstrap_load w :
  (let! info := retrain_food_model env in
   let! path := ret (model_path info) in load path) (ensured w)
  = (Returns (fitted env), bootstrapped env w).
Proof.
  rewrite (bind_run _ _ _ _ _ (food_retrain_bootstrapped w)).
  cbv beta. unfold Py.bind, ret. rewrite food_load. cbn.
  by rewrite lookup_insert_eq.
Qed.

(** Without a usable active path, the model is trained on the spot. *)
Lemma food_load_active_bootstrap w :
  (match last (List.filter active (registry w)) with
   | None => True
   | Some m => path m = "" \/ files w !! path m = None
   end) ->
  _load_active_food_model env w = (Returns (fitted env), bootstrapped env w).
Proof.
  intros Hcase. unfold _load_active_food_model.
  rewrite (bind_run _ _ _ _ _ (food_active_path w)).
  rewrite <- food_bootstrap_load.
  destruct (last (List.filter active (registry w))) as [m|]; cbn.
  - unfold exists_. unfold Py.bind at 1 2, get, ret.
    rewrite food_ensured_files.
    destruct Hcase as [Hp|Hfile].
    + rewrite Hp. cbn. unfold Py.bind. by destruct (retrain_food_model _ _) as [[]].
    + rewrite Hfile. rewrite bool_decide_eq_false_2 by by intros [? [=]].
      rewrite orb_true_r. unfold Py.bind.
      by destruct (retrain_food_model _ _) as [[]].
  - unfold Py.bind at 1, ret. cbn. unfold Py.bind.
    by destruct (retrain_food_model _ _) as [[]].
Qed.

(** With an active path whose file exists, the file is loaded. *)
Lemma food_load_active_present w m a :
  last (List.filter active (registry w)) = Some m ->
  path m <> "" ->
  files w !! path m = Some a ->
  _load_active_food_model env w
  = (match a with
     | Joblib model => Returns model
     | Corrupt => Raises (UnpicklingError (path m))
     end, ensured w).
Proof.
  intros Hm Hp Hfile. unfold _load_active_food_model.
  rewrite (bind_run _ _ _ _ _ (food_active_path w)). rewrite Hm. cbn.
  unfold exists_. unfold Py.bind at 1 2, get, ret.
  rewrite food_ensured_files, Hfile.
  rewrite bool_decide_eq_true_2 by by eexists.
  destruct (path m) as [|c p] eqn:Hpm; [done|]. cbn.
  rewrite food_ensured_files, Hfile.
  by destruct a.
Qed.

Lemma food_predict_run items w model w' :
  _load_active_food_model env w = (Returns model, w') ->
  predict_meal_nutrition env items w = (Returns (totals_with model items), w').
Proof.
  intros Hload. unfold predict_meal_nutrition.
  by rewrite (bind_run _ _ _ _ _ Hload).
Qed.

Lemma food_predict_raises items w e w' :
  _load_active_food_model env w = (Raises e, w') ->
  predict_meal_nutrition env items w = (Raises e, w').
Proof. intros Hload. by apply bind_raises. Qed.
End FoodLoad.

Lemma bootstrapped_active env w :
  last (List.filter Food.active (Food.registry (bootstrapped env w)))
  = Some (Food.new_record env).
Proof.
  exact (f_equal last
           (promoted_filter (fam := food) (Food.registry w)
              (Food.new_record env) eq_refl)).
Qed.

Lemma bootstrapped_reuse env w env2 items :
  Food.predict_meal_nutrition env2 items (bootstrapped env w)
  = (Returns (totals_with (Food.fitted env) items), bootstrapped env w).
Proof.
  apply food_predict_run.
  rewrite (food_load_active_present env2 _ _ (Food.Joblib (Food.fitted env))
             (bootstrapped_active env w)); [done|done|].
  cbn. apply lookup_insert_eq.
Qed.

(** C5. A food prediction made while the registry has no active record
    runs exactly one training, predicts with the regressor that this run
    fitted, and leaves a world in which every later prediction returns
    with that same regressor and changes nothing: no further run is
    started and the registry stays as it is. *)
Theorem food_bootstrap_trains_once
    (env : Food.TrainEnv) (items : list Food.MealItem) (w : Food.World) :
  last_active (fam := food) (Food.registry w) None ->
  exists w',
    Food.predict_meal_nutrition env items w
      = (Returns (totals_with (Food.fitted env) items), w') /\
    Food.mlflow_runs w' = Food.mlflow_runs w ++ ["food_calorie_model"] /\
    length (Food.registry w') = S (length (Food.registry w)) /\
    forall env2 items2,
      Food.predict_meal_nutrition env2 items2 w'
      = (Returns (totals_with (Food.fitted env) items2), w').
Proof.
  intros Hnone. exists (bootstrapped env w). repeat split.
  - apply food_predict_run, food_load_active_bootstrap.
    by rewrite (filter_none Food.active _ Hnone).
  - change (Food.registry (bootstrapped env w))
      with ((Food.set_active false <$> Food.registry w) ++ [Food.new_record env]).
    rewrite length_app, length_fmap. cbn. lia.
  - intros env2 items2. apply bootstrapped_reuse.
Qed.

Lemma food_bootstrap_trains_once_witness :
  exists w',
    Food.predict_meal_nutrition Sample.food_env
      [ {| Food.item_name := Some "idli"; Food.quantity := Some 2%Q |} ]
      Sample.food_world
    = (Returns (totals_with Sample.regressor
                  [ {| Food.item_name := Some "idli";
                       Food.quantity := Some 2%Q |} ]), w') /\
    Food.mlflow_runs w' = ["food_calorie_model"] /\
    Food.registry w' = [Sample.food_record].
Proof.
  destruct (food_bootstrap_trains_once Sample.food_env
              [ {| Food.item_name := Some "idli"; Food.quantity := Some 2%Q |} ]
              Sample.food_world)
    as (w' & Hrun & Hruns & _ & Hreuse); [constructor|].
  exists w'. split; [done|]. split; [done|].
  unfold Food.predict_meal_nutrition in Hrun.
  apply bind_returns in Hrun as (model & w1 & Hload & [= _ <-]).
  rewrite (food_load_active_bootstrap Sample.food_env Sample.food_world I)
    in Hload.
  by injection Hload as _ <-.
Defined.

(** ** Artifacts that fail to load *)

(** C2 fails as stated for the food family: with an active record whose
    artifact file is missing, food prediction returns totals, after
    training a model as it does when there is no active record. *)
Lemma missing_food_artifact_counterexample :
  last_active (fam := food)
    (Food.registry Sample.desynchronized_food_world)
    (Some Sample.food_record) /\
  Food.files Sample.desynchronized_food_world
    !! Food.path Sample.food_record = None /\
  exists totals w',
    Food.predict_meal_nutrition Sample.food_env [] 
      Sample.desynchronized_food_world = (Returns totals, w') /\
    Food.mlflow_runs w' = ["food_calorie_model"].
Proof.
  split; [by exists [], []|]. split; [done|].
  eexists _, _. split.
  - apply food_predict_run, food_load_active_bootstrap. by right.
  - reflexivity.
Qed.

(** C2, amended. When the active record's artifact is unreadable, a
    prediction of either family raises, which the no-active-model result
    never does; alert prediction also raises when the file is missing.
    Food prediction treats a missing file like the absence of a model: it
    runs one training and predicts with the regressor it fitted. *)
Theorem artifact_load_failures
    (wa : Alert.World) (twin : Alert.Twin) (ma : record alert)
    (wf : Food.World) (env : Food.TrainEnv) (items : list Food.MealItem)
    (mf : record food) :
  last_active (fam := alert) (Alert.registry wa) (Some ma) ->
  Alert.path ma <> "" ->
  last_active (fam := food) (Food.registry wf) (Some mf) ->
  Food.path mf <> "" ->
  (Alert.files wa !! Alert.path ma = None ->
   exists w', Alert.predict_alert_for_twin twin wa
              = (Raises (FileNotFoundError (Alert.path ma)), w')) /\
  (Alert.files wa !! Alert.path ma = Some Alert.Corrupt ->
   exists w', Alert.predict_alert_for_twin twin wa
              = (Raises (UnpicklingError (Alert.path ma)), w')) /\
  (Food.files wf !! Food.path mf = Some Food.Corrupt ->
   exists w', Food.predict_meal_nutrition env items wf
              = (Raises (UnpicklingError (Food.path mf)), w') /\
              Food.mlflow_runs w' = Food.mlflow_runs wf) /\
  (Food.files wf !! Food.path mf = None ->
   exists w', Food.predict_meal_nutrition env items wf
              = (Returns (totals_with (Food.fitted env) items), w') /\
              Food.mlflow_runs w'
              = Food.mlflow_runs wf ++ ["food_calorie_model"]).
Proof.
  intros (ba & aa & Hsa & Hma & Haa) Hpa (bf & af & Hsf & Hmf & Haf) Hpf.
  pose proof (last_filter_of_split Alert.active _ _ _ _ Hsa Hma Haa) as Hla.
  pose proof (last_filter_of_split Food.active _ _ _ _ Hsf Hmf Haf) as Hlf.
  assert (forall a, Alert.files wa !! Alert.path ma = a ->
            Alert.predict_alert_for_twin twin wa
            = (let! model := Alert.load (Alert.path ma) in
               let! features := lift (Alert._build_feature_vector twin) in
               match Alert.labels !! model features with
               | Some l => ret (Alert.Prediction (model features) l)
               | None => raise (KeyError (pretty (model features)))
               end) (Alert.ensured wa)) as Halert.
  { intros a _. unfold Alert.predict_alert_for_twin.
    rewrite (bind_run _ _ _ _ _ (alert_active_path wa)), Hla. cbn.
    by destruct (Alert.path ma). }
  repeat split.
  - intros Hfile. eexists. rewrite (Halert _ Hfile). apply bind_raises.
    by rewrite alert_load, ensured_files, Hfile.
  - intros Hfile. eexists. rewrite (Halert _ Hfile). apply bind_raises.
    by rewrite alert_load, ensured_files, Hfile.
  - intros Hfile. exists (Food.ensured wf). split; [|apply food_ensured_runs].
    apply food_predict_raises.
    by rewrite (food_load_active_present env _ _ _ Hlf Hpf Hfile).
  - intros Hfile. exists (bootstrapped env wf). split; [|done].
    apply food_predict_run, food_load_active_bootstrap.
    rewrite Hlf. by right.
Qed.

Lemma artifact_load_failures_witness :
  (exists w', Alert.predict_alert_for_twin (Sample.twin None)
                Sample.desynchronized_alert_world
              = (Raises (FileNotFoundError (Alert.path Sample.alert_record)), w')) /\
  (exists w', Alert.predict_alert_for_twin (Sample.twin None)
                Sample.corrupted_alert_world
              = (Raises (UnpicklingError (Alert.path Sample.alert_record)), w')) /\
  (exists w', Food.predict_meal_nutrition Sample.food_env []
                Sample.corrupted_food_world
              = (Raises (UnpicklingError (Food.path Sample.food_record)), w')) /\
  (exists w', Food.predict_meal_nutrition Sample.food_env []
                Sample.desynchronized_food_world
              = (Returns (totals_with Sample.regressor []), w')).
Proof.
  assert (forall wa wf,
            Alert.registry wa = [Sample.alert_record] ->
            Food.registry wf = [Sample.food_record] ->
            last_active (fam := alert) (Alert.registry wa)
              (Some Sample.alert_record) /\
            last_active (fam := food) (Food.registry wf)
              (Some Sample.food_record)) as Hactive.
  { intros wa wf -> ->. split; by exists [], []. }
  repeat split.
  - destruct (Hactive Sample.desynchronized_alert_world
                Sample.desynchronized_food_world eq_refl eq_refl) as [Ha Hf].
    apply (artifact_load_failures _ (Sample.twin None) _ _ Sample.food_env []
             _ Ha ltac:(discriminate) Hf ltac:(discriminate)).
    reflexivity.
  - destruct (Hactive Sample.corrupted_alert_world
                Sample.corrupted_food_world eq_refl eq_refl) as [Ha Hf].
    apply (artifact_load_failures _ (Sample.twin None) _ _ Sample.food_env []
             _ Ha ltac:(discriminate) Hf ltac:(discriminate)).
    vm_compute. reflexivity.
  - destruct (Hactive Sample.corrupted_alert_world
                Sample.corrupted_food_world eq_refl eq_refl) as [Ha Hf].
    destruct (artifact_load_failures _ (Sample.twin None) _ _ Sample.food_env []
                _ Ha ltac:(discriminate) Hf ltac:(discriminate))
      as (_ & _ & Hc & _).
    destruct Hc as (w' & Hrun & _); [vm_compute; reflexivity|]. by exists w'.
  - destruct (Hactive Sample.desynchronized_alert_world
                Sample.desynchronized_food_world eq_refl eq_refl) as [Ha Hf].
    destruct (artifact_load_failures _ (Sample.twin None) _ _ Sample.food_env []
                _ Ha ltac:(discriminate) Hf ltac:(discriminate))
      as (_ & _ & _ & Hm).
    destruct Hm as (w' & Hrun & _); [reflexivity|]. by exists w'.
Defined.

(** ** Food prediction: the items *)

Lemma is_space_lower_char c : is_space (lower_char c) = is_space c.
Proof. by destruct c as [[] [] [] [] [] [] [] []]. Qed.

Lemma lower_lstrip s : lower (lstrip s) = lstrip (lower s).
Proof.
  induction s as [|c s IH]; [done|].
  cbn. rewrite is_space_lower_char. by destruct (is_space c).
Qed.

Lemma lower_rstrip s : lower (rstrip s) = rstrip (lower s).
Proof.
  induction s as [|c s IH]; [done|].
  cbn. fold (lower s). rewrite <- IH, is_space_lower_char.
  destruct (rstrip s); cbn; [by destruct (is_space c)|done].
Qed.





Lemma food_predict_totals env items w :
  Food.predict_meal_nutrition env items w
  = match Food._load_active_food_model env w with
    | (Returns model, w') => (Returns (totals_with model items), w')
    | (Raises e, w') => (Raises e, w')
    end.
Proof. reflexivity. Qed.






(** * Further properties of the code *)

(** ** The feature encoders *)

Lemma lower_char_idem c : lower_char (lower_char c) = lower_char c.
Proof. by destruct c as [[] [] [] [] [] [] [] []]. Qed.

Lemma lower_idem s : lower (lower s) = lower s.
Proof.
  induction s as [|c s IH]; [done|].
  cbn. fold (lower s). fold (lower (lower s)). by rewrite lower_char_idem, IH.
Qed.

Lemma lower_empty s : lower s = "" -> s = "".
Proof. by destruct s. Qed.

(** X1. The gender code depends on the string only up to letter case, is
    one of 0, 1, 2, and a missing gender gets the code of a male one. *)
Theorem encode_gender_case_insensitive (s s' : string) :
  lower s = lower s' ->
  Alert._encode_gender (Some s) = Alert._encode_gender (Some s') /\
  Alert._encode_gender (Some s) ∈ [0%Q; 1%Q; 2%Q] /\
  (startswith "m" (lower s) = true ->
   Alert._encode_gender (Some s) = Alert._encode_gender None).
Proof.
  intros Hlow.
  assert (forall u, u <> "" ->
            Alert._encode_gender (Some u)
            = (if startswith "m" (lower u) then 0
               else if startswith "f" (lower u) then 1 else 2)%Q) as Hnonempty.
  { intros [|c u] Hu; [done|reflexivity]. }
  destruct (decide (s = "")) as [->|Hs].
  { symmetry in Hlow. apply lower_empty in Hlow as ->.
    split; [done|]. split; [cbn; set_solver|done]. }
  assert (s' <> "") as Hs'.
  { intros ->. by apply lower_empty in Hlow. }
  rewrite (Hnonempty s Hs), (Hnonempty s' Hs'), Hlow.
  split; [done|]. split; [|by intros ->].
  repeat destruct (startswith _ _); set_solver.
Qed.

Lemma encode_gender_case_insensitive_witness :
  Alert._encode_gender (Some "Male") = Alert._encode_gender (Some "MALE") /\
  Alert._encode_gender (Some "Male") = Alert._encode_gender None.
Proof.
  destruct (encode_gender_case_insensitive "Male" "MALE" eq_refl)
    as (Hsame & _ & Hmale).
  split; [exact Hsame|]. by apply Hmale.
Defined.

(** X2. The diet code depends on the string only up to letter case and is
    one of 0, 1, 2, 3; a diet that mentions "non" is never coded 0
    (vegetarian), and one that mentions "egg" is never coded 2 or 3. *)
Theorem encode_diet_case_insensitive (d d' : string) :
  lower d = lower d' ->
  Alert._encode_diet (Some d) = Alert._encode_diet (Some d') /\
  Alert._encode_diet (Some d) ∈ [0%Q; 1%Q; 2%Q; 3%Q] /\
  (contains "non" (lower d) = true -> Alert._encode_diet (Some d) <> 0%Q) /\
  (contains "egg" (lower d) = true ->
   Alert._encode_diet (Some d) ∈ [0%Q; 1%Q]).
Proof.
  intros Hlow.
  assert (forall u, u <> "" ->
            Alert._encode_diet (Some u)
            = (if contains "veg" (lower u) && negb (contains "non" (lower u))
               then 0
               else if contains "egg" (lower u) then 1
               else if contains "non" (lower u) then 2 else 3)%Q) as Hnonempty.
  { intros [|c u] Hu; [done|reflexivity]. }
  destruct (decide (d = "")) as [->|Hd].
  { symmetry in Hlow. apply lower_empty in Hlow as ->.
    split; [done|]. split; [cbn; set_solver|]. split; [done|].
    cbn. discriminate. }
  assert (d' <> "") as Hd'.
  { intros ->. by apply lower_empty in Hlow. }
  rewrite (Hnonempty d Hd), (Hnonempty d' Hd'), Hlow.
  split; [done|].
  destruct (contains "veg" (lower d')), (contains "non" (lower d')),
    (contains "egg" (lower d')); cbn; repeat split; try done; set_solver.
Qed.

Lemma encode_diet_case_insensitive_witness :
  Alert._encode_diet (Some "Non-Veg") = Alert._encode_diet (Some "NON-VEG") /\
  Alert._encode_diet (Some "Non-Veg") <> 0%Q.
Proof.
  destruct (encode_diet_case_insensitive "Non-Veg" "NON-VEG" eq_refl)
    as (Hsame & _ & Hnon & _).
  split; [exact Hsame|]. by apply Hnon.
Defined.

(** ** The feature vector and the training data *)

Lemma or_default_falsy x d : falsy_score x -> or_default x d = d.
Proof.
  intros [->|(v & -> & Hv)]; [done|].
  unfold or_default. by apply Qeq_bool_iff in Hv as ->.
Qed.

(** X3. A twin of height zero makes the feature vector raise a division
    error; whenever the vector is built it has 23 entries, the last of
    which is the organ-load score, or 0.4 when that is missing or zero. *)
Theorem build_feature_vector_shape (t : Alert.Twin) :
  ((Alert.height_cm t == 0)%Q ->
   Alert._build_feature_vector t = Raises ZeroDivisionError) /\
  (forall x, Alert._build_feature_vector t = Returns x ->
     length x = 23%nat /\
     last x = Some (or_default (Alert.organ_load_score t) Alert.f0_4)).
Proof.
  unfold Alert._build_feature_vector. split.
  - intros Hh.
    assert (Alert.height_cm t / 100 * (Alert.height_cm t / 100) == 0)%Q as H0.
    { rewrite Hh. reflexivity. }
    by apply Qeq_bool_iff in H0 as ->.
  - intros x. destruct (Qeq_bool _ 0); [done|]. by intros [= <-].
Qed.

Lemma build_feature_vector_shape_witness :
  exists x, Alert._build_feature_vector (Sample.twin None) = Returns x /\
            length x = 23%nat /\ last x = Some Alert.f0_4.
Proof.
  eexists. split; [reflexivity|].
  apply (proj2 (build_feature_vector_shape (Sample.twin None))).
  reflexivity.
Defined.

(** X4. The feature and the label read the organ-load score with
    different defaults.  A twin whose score is missing or zero has the
    feature vector of the same twin with score 0.4, yet the first is
    labelled 0 and the second 1. *)
Theorem missing_score_feature_label_mismatch (t : Alert.Twin) :
  falsy_score (Alert.organ_load_score t) ->
  Alert._build_feature_vector (with_organ_load t (Some Alert.f0_4))
  = Alert._build_feature_vector t /\
  Alert._build_label t = 0%Z /\
  Alert._build_label (with_organ_load t (Some Alert.f0_4)) = 1%Z.
Proof.
  intros Hfalsy. split; [|split].
  - unfold Alert._build_feature_vector. cbn [with_organ_load
      Alert.age Alert.gender Alert.height_cm Alert.weight_kg Alert.spo2
      Alert.resting_hr Alert.sleep_hours Alert.screen_time_hours
      Alert.exercise_level Alert.smoking Alert.alcohol Alert.daily_steps
      Alert.outside_food_per_week Alert.tea_coffee_per_day Alert.diet_type
      Alert.income Alert.aqi Alert.commute_hours Alert.ac_exposure_hours
      Alert.heart_score Alert.metabolic_score Alert.mental_stress_score
      Alert.lung_risk_score Alert.organ_load_score].
    by rewrite (or_default_falsy _ Alert.f0_4 Hfalsy).
  - unfold Alert._build_label. by rewrite (or_default_falsy _ 0%Q Hfalsy).
  - reflexivity.
Qed.

Lemma missing_score_feature_label_mismatch_witness :
  Alert._build_feature_vector (Sample.twin (Some Alert.f0_4))
  = Alert._build_feature_vector (Sample.twin None) /\
  Alert._build_label (Sample.twin None) = 0%Z /\
  Alert._build_label (Sample.twin (Some Alert.f0_4)) = 1%Z.
Proof.
  apply (missing_score_feature_label_mismatch (Sample.twin None)).
  by left.
Defined.





(** ** The registry document, read and written *)



(** ** Training runs that fail, and what completed runs leave behind *)

Lemma alert_bakeoff_keeps_registry env sp keys b w :
  Alert.registry (Alert.bakeoff env sp keys b w).2 = Alert.registry w.
Proof. unfold Alert.registry. by rewrite alert_bakeoff_meta. Qed.

(** X7. An alert training run that raises, at whatever stage, leaves
    the registry and the stored twins as they were: the promotion is the
    last step of a run and the only one that writes the document's
    records. *)
Theorem failed_retrain_keeps_registry
    (env : Alert.TrainEnv) (w : Alert.World) (e : exn) (w' : Alert.World) :
  Alert.retrain_alert_model env w = (Raises e, w') ->
  Alert.registry w' = Alert.registry w /\
  Alert.twins w' = Alert.twins w /\
  (Alert.get_active_model_info w').1 = (Alert.get_active_model_info w).1.
Proof.
  intros Hrun.
  assert (Alert.registry w' = Alert.registry w /\
          Alert.twins w' = Alert.twins w) as [Hreg Htw].
  { revert Hrun. unfold Alert.retrain_alert_model.
    rewrite (bind_run _ _ _ _ _ (alert_ensure_dirs w)).
    unfold Py.bind at 1. rewrite alert_load_training_data.
    destruct (if (length (Alert.twins (Alert.ensured w)) <? 10)%nat
              then _ else _) as [[X y]|e0].
    2:{ intros [= _ <-]. by rewrite alert_registry_ensured, ensured_twins. }
    unfold Py.bind at 1, lift.
    destruct (Alert.train_test_split env X y) as [sp|e0].
    2:{ intros [= _ <-]. by rewrite alert_registry_ensured, ensured_twins. }
    unfold Py.bind at 1.
    pose proof (alert_bakeoff_keeps_registry env sp (Alert.models env)
                  Alert.initial_best (Alert.ensured w)) as Hreg.
    pose proof (alert_bakeoff_twins env sp (Alert.models env)
                  Alert.initial_best (Alert.ensured w)) as Htw.
    rewrite alert_registry_ensured in Hreg. rewrite ensured_twins in Htw.
    destruct (Alert.bakeoff env sp (Alert.models env) Alert.initial_best
                (Alert.ensured w)) as [[b|e0] w1]; cbn in Hreg, Htw.
    2:{ by intros [= _ <-]. }
    rewrite (bind_run _ _ _ _ _ (alert_load_meta w1)).
    destruct (Alert.best_model_path b) as [p|]; [done|].
    intros [= _ <-]. by rewrite alert_registry_ensured, ensured_twins. }
  repeat split; [done..|].
  unfold Alert.get_active_model_info.
  rewrite !(bind_run _ _ _ _ _ (alert_load_meta _)). by rewrite Hreg.
Qed.

Lemma sample_failing_run :
  exists w',
    Alert.retrain_alert_model Sample.failing_alert_env
      (Sample.alert_world Sample.ten_twins)
    = (Raises (LibraryError "fit did not converge"), w') /\
    Alert.mlflow_runs w' = ["alert_logreg"; "alert_rf"; "alert_gb"] /\
    Alert.files w' !! "models/alert_rf_20240101-120000.joblib"
    = Some (Alert.Joblib Sample.pipe).
Proof. eexists. repeat split; vm_compute; reflexivity. Qed.

Lemma failed_retrain_keeps_registry_witness :
  exists w',
    Alert.retrain_alert_model Sample.failing_alert_env
      (Sample.alert_world Sample.ten_twins)
    = (Raises (LibraryError "fit did not converge"), w') /\
    Alert.registry w' = Alert.registry (Sample.alert_world Sample.ten_twins).
Proof.
  destruct sample_failing_run as (w' & Hrun & _).
  exists w'. split; [exact Hrun|].
  exact (proj1 (failed_retrain_keeps_registry _ _ _ _ Hrun)).
Defined.

(** X10. Alert prediction is read-only apart from creating the registry
    document on first access: whatever it returns or raises, the registry,
    the artifact files, the tracker runs and the stored twins are as
    before. *)
Theorem alert_prediction_is_read_only (w : Alert.World) (twin : Alert.Twin) :
  let w' := (Alert.predict_alert_for_twin twin w).2 in
  Alert.registry w' = Alert.registry w /\
  Alert.files w' = Alert.files w /\
  Alert.mlflow_runs w' = Alert.mlflow_runs w /\
  Alert.twins w' = Alert.twins w.
Proof.
  assert ((Alert.predict_alert_for_twin twin w).2 = Alert.ensured w) as ->.
  { unfold Alert.predict_alert_for_twin.
    rewrite (bind_run _ _ _ _ _ (alert_active_path w)).
    destruct (Alert.path <$> last _) as [[|c p]|]; [done| |done].
    unfold Py.bind at 1. rewrite alert_load.
    destruct (Alert.files (Alert.ensured w) !! String c p) as [[pipe|]|];
      [|done..].
    unfold Py.bind, lift.
    destruct (Alert._build_feature_vector twin) as [x|e]; [|done].
    by destruct (Alert.labels !! pipe x). }
  cbv zeta.
  by rewrite alert_registry_ensured, ensured_files, ensured_runs, ensured_twins.
Qed.

(** Two candidates of the roster never share an artifact path, whatever
    the clock answers: their keys differ in the first character. *)
Lemma model_path_of_inj env k k' :
  k ∈ Alert.models env -> k' ∈ Alert.models env ->
  Alert.model_path_of env k = Alert.model_path_of env k' -> k = k'.
Proof.
  unfold Alert.models. intros Hk Hk'.
  assert (forall x, x ∈ ["logreg"; "rf"; "gb"; "knn"; "extra_trees";
                         "adaboost"; "xgboost"] -> 
            x = "logreg" \/ x = "rf" \/ x = "gb" \/ x = "knn" \/
            x = "extra_trees" \/ x = "adaboost" \/ x = "xgboost") as Hcases.
  { intros x Hx.
    repeat (apply elem_of_cons in Hx as [->|Hx]; [tauto|]).
    by apply elem_of_nil in Hx. }
  assert (forall x, x ∈ ["logreg"; "rf"; "gb"; "knn"; "extra_trees"; "adaboost"]
                        ++ (if Alert.XGBOOST_AVAILABLE env then ["xgboost"] else [])
                    -> x ∈ ["logreg"; "rf"; "gb"; "knn"; "extra_trees";
                            "adaboost"; "xgboost"]) as Hsub.
  { intros x. destruct (Alert.XGBOOST_AVAILABLE env); [done|].
    rewrite app_nil_r. intros Hx.
    change (x ∈ ["logreg"; "rf"; "gb"; "knn"; "extra_trees"; "adaboost"]
                ++ ["xgboost"]).
    apply elem_of_app. by left. }
  apply Hsub, Hcases in Hk. apply Hsub, Hcases in Hk'.
  unfold Alert.model_path_of, path_join, Alert.MODELS_DIR.
  destruct Hk as [Hk|[Hk|[Hk|[Hk|[Hk|[Hk|Hk]]]]]];
    destruct Hk' as [Hk'|[Hk'|[Hk'|[Hk'|[Hk'|[Hk'|Hk']]]]]];
    rewrite Hk, Hk'; cbn; intros H; first [reflexivity | discriminate H].
Qed.

Lemma models_NoDup env : NoDup (Alert.models env).
Proof.
  unfold Alert.models. destruct (Alert.XGBOOST_AVAILABLE env);
    apply (bool_decide_unpack (NoDup _)); vm_compute; exact I.
Qed.

(** What a completed loop leaves in the tracker and on disk. *)
Lemma bakeoff_leaves env sp keys b w b' w' :
  NoDup keys ->
  (forall k k', k ∈ keys -> k' ∈ keys ->
     Alert.model_path_of env k = Alert.model_path_of env k' -> k = k') ->
  Alert.bakeoff env sp keys b w = (Returns b', w') ->
  Alert.mlflow_runs w'
    = Alert.mlflow_runs w ++ (String.append "alert_" <$> keys) /\
  (forall k, k ∈ keys ->
     exists pipe acc f1,
       Alert.fit_and_score env k sp = Returns (pipe, acc, f1) /\
       Alert.files w' !! Alert.model_path_of env k = Some (Alert.Joblib pipe)) /\
  (forall p, (forall k, k ∈ keys -> Alert.model_path_of env k <> p) ->
     Alert.files w' !! p = Alert.files w !! p).
Proof.
  revert b w. induction keys as [|key rest IH]; intros b w Hnd Hinj.
  { intros [= _ <-]. rewrite app_nil_r. split; [done|].
    split; [by intros k ?%elem_of_nil|done]. }
  apply NoDup_cons in Hnd as [Hkey Hnd].
  cbn [Alert.bakeoff]. unfold Py.bind at 1, modify at 1.
  unfold Py.bind at 1, lift at 1.
  destruct (Alert.fit_and_score env key sp) as [[[pipe acc] f1]|e] eqn:Hfit;
    [|done].
  unfold Py.bind at 1, modify at 1. intros Hrest.
  apply IH in Hrest as (Hruns & Hfiles & Hother); [|done|].
  2:{ intros k k' Hk Hk'. apply Hinj; by apply list_elem_of_further. }
  split; [|split].
  - rewrite Hruns. cbn. by rewrite <- app_assoc.
  - intros k [->|Hk]%elem_of_cons.
    + exists pipe, acc, f1. split; [done|].
      rewrite Hother; [cbn; apply lookup_insert_eq|].
      intros k Hk Heq. apply Hkey.
      rewrite <- (Hinj k key); [done|by apply list_elem_of_further
                               |apply list_elem_of_here|done].
    + by apply Hfiles.
  - intros p Hp. rewrite Hother.
    + cbn. apply lookup_insert_ne, Hp, list_elem_of_here.
    + intros k Hk. by apply Hp, list_elem_of_further.
Qed.

Lemma wins_elem evs ev : wins evs ev -> ev ∈ evs.
Proof.
  intros (before & after & -> & _). apply elem_of_app. right.
  apply list_elem_of_here.
Qed.

(** X8. A completed alert training run has sent one tracker run per
    candidate, in roster order, and has left one artifact file per
    candidate, the losers' as well as the winner's, each holding the
    pipeline fitted for that candidate; no other file is touched. *)
Theorem completed_retrain_keeps_every_candidate
    (env : Alert.TrainEnv) (w : Alert.World) (s : Alert.Summary)
    (w' : Alert.World) :
  Alert.retrain_alert_model env w = (Returns s, w') ->
  Alert.mlflow_runs w'
    = Alert.mlflow_runs w ++ (String.append "alert_" <$> Alert.models env) /\
  (exists X y sp,
     Alert.build_rows (Alert.twins w) = Returns (X, y) /\
     Alert.train_test_split env X y = Returns sp /\
     forall k, k ∈ Alert.models env ->
       exists pipe acc f1,
         Alert.fit_and_score env k sp = Returns (pipe, acc, f1) /\
         Alert.files w' !! Alert.model_path_of env k
         = Some (Alert.Joblib pipe)) /\
  (forall p, (forall k, k ∈ Alert.models env ->
                Alert.model_path_of env k <> p) ->
     Alert.files w' !! p = Alert.files w !! p).
Proof.
  intros (X & y & sp & b & p & w1 & _ & Hrows & Hsp & Hb & _ & _ & ->)%alert_retrain_inv.
  apply bakeoff_leaves in Hb as (Hruns & Hfiles & Hother);
    [|apply models_NoDup|apply model_path_of_inj].
  rewrite ensured_runs in Hruns. cbn.
  split; [done|]. split.
  - by exists X, y, sp.
  - intros q Hq. by rewrite (Hother q Hq), ensured_files.
Qed.

Lemma completed_retrain_keeps_every_candidate_witness :
  Alert.mlflow_runs Sample.trained_alert_world
  = ["alert_logreg"; "alert_rf"; "alert_gb"; "alert_knn";
     "alert_extra_trees"; "alert_adaboost"] /\
  Alert.files Sample.trained_alert_world
    !! "models/alert_knn_20240101-120000.joblib"
  = Some (Alert.Joblib Sample.pipe).
Proof.
  destruct sample_alert_run as (w0 & Hrun0 & _).
  assert (Alert.retrain_alert_model Sample.alert_env
            (Sample.alert_world Sample.ten_twins)
          = (Returns
               (Alert.summary_of
                  {| Alert.best_model_path := Some (Alert.path Sample.alert_record);
                     Alert.best_f1 := 0.85%Q; Alert.best_acc := 0.80%Q;
                     Alert.best_key := Some "rf";
                     Alert.best_run := Some "run-rf" |}
                  (Alert.path Sample.alert_record)),
             Sample.trained_alert_world)) as Hrun.
  { unfold Sample.trained_alert_world. by rewrite Hrun0. }
  destruct (completed_retrain_keeps_every_candidate _ _ _ _ Hrun)
    as (Hruns & (X & y & sp & _ & _ & Hfiles) & _).
  split; [exact Hruns|].
  destruct (Hfiles "knn") as (pipe & acc & f1 & Hfit & Hfile).
  { do 3 apply list_elem_of_further. apply list_elem_of_here. }
  injection Hfit as <- _ _. exact Hfile.
Defined.

(** X9. After a completed alert training run the accessors report the
    run's winner: the active path is the path of the summary, the active
    record carries the summary's model type, metrics and run id, and the
    file at that path holds the pipeline fitted for the winning candidate.
    Every later prediction for a twin whose features can be computed is
    answered by that pipeline. *)
Theorem retrain_then_predict
    (env : Alert.TrainEnv) (w : Alert.World) (s : Alert.Summary)
    (w' : Alert.World) :
  Alert.retrain_alert_model env w = (Returns s, w') ->
  Alert.get_active_model_path w' = (Returns (Some (Alert.model_path s)), w') /\
  (exists m,
     Alert.get_active_model_info w' = (Returns (Some m), w') /\
     Alert.path m = Alert.model_path s /\
     Alert.name m = basename (Alert.model_path s) /\
     Alert.model_type m = Alert.best_model s /\
     Alert.accuracy m = Alert.summary_accuracy s /\
     Alert.f1_macro m = Alert.summary_f1_macro s /\
     Alert.mlflow_run_id m = Alert.summary_run_id s) /\
  (exists k pipe sp,
     Alert.best_model s = Some k /\
     Alert.model_path s = Alert.model_path_of env k /\
     Alert.fit_and_score env k sp
     = Returns (pipe, Alert.summary_accuracy s, Alert.summary_f1_macro s) /\
     forall twin x,
       Alert._build_feature_vector twin = Returns x ->
       Alert.predict_alert_for_twin twin w'
       = (match Alert.labels !! pipe x with
          | Some l => Returns (Alert.Prediction (pipe x) l)
          | None => Raises (KeyError (pretty (pipe x)))
          end, w')).
Proof.
  intros Hrun.
  destruct (completed_retrain_keeps_every_candidate _ _ _ _ Hrun)
    as (_ & (X & y & sp & Hrows & Hsp & Hfiles) & _).
  apply alert_retrain_inv in Hrun
    as (X' & y' & sp' & b & p & w1 & _ & Hrows' & Hsp' & Hb & Hp & -> & ->).
  rewrite Hrows in Hrows'. injection Hrows' as <- <-.
  rewrite Hsp in Hsp'. injection Hsp' as <-.
  pose proof (bakeoff_fold env sp (Alert.models env) Alert.initial_best
                (Alert.ensured w)) as Hfold.
  rewrite Hb in Hfold. destruct Hfold as (evs & Hevs & Hbest).
  destruct (fold_pick env evs Alert.initial_best)
    as [[_ Hsame]|(ev & Hwin & _ & Hch)].
  { rewrite Hbest, Hsame in Hp. discriminate Hp. }
  rewrite Hch in Hbest. subst b. cbn in Hp. injection Hp as <-.
  set (m := Alert.new_record env (chosen env ev)
              (Alert.model_path_of env (ev_key ev))) in *.
  set (w' := Alert.with_meta w1 _) in *.
  assert (Alert.ensured w' = w') as Hens by done.
  assert (last (List.filter Alert.active (Alert.registry w')) = Some m) as Hlast.
  { exact (f_equal last
             (promoted_filter (fam := alert) (Alert.registry w) m eq_refl)). }
  assert (ev_key ev ∈ Alert.models env) as Hkey.
  { rewrite <- (evaluations_keys _ _ _ _ Hevs).
    apply list_elem_of_fmap. exists ev. split; [done|by apply wins_elem]. }
  destruct (Hfiles _ Hkey) as (pipe & acc & f1 & Hfit & Hfile).
  pose proof (evaluations_scores _ _ _ _ Hevs) as Hscores.
  rewrite Forall_forall in Hscores.
  destruct (Hscores ev (wins_elem _ _ Hwin)) as [pipe' Hfit'].
  rewrite Hfit in Hfit'. injection Hfit' as _ -> ->.
  assert (Alert.get_active_model_path w'
          = (Returns (Some (Alert.model_path_of env (ev_key ev))), w')) as Hpath.
  { by rewrite alert_active_path, Hlast, Hens. }
  split; [exact Hpath|]. split.
  - exists m. split; [|done].
    unfold Alert.get_active_model_info.
    rewrite (bind_run _ _ _ _ _ (alert_load_meta w')), Hens.
    unfold ret. by rewrite find_rev_last_filter, Hlast.
  - exists (ev_key ev), pipe, sp. split; [done|]. split; [done|].
    split; [done|]. intros twin x Hx.
    unfold Alert.predict_alert_for_twin.
    rewrite (bind_run _ _ _ _ _ Hpath).
    assert (exists c q, Alert.model_path_of env (ev_key ev) = String c q)
      as (c & q & Hq) by (by eexists _, _).
    rewrite Hq. rewrite <- Hq.
    rewrite (bind_run _ _ _ pipe w'); [|by rewrite alert_load, Hfile].
    unfold Py.bind, lift. rewrite Hx.
    by destruct (Alert.labels !! pipe x).
Qed.

Lemma retrain_then_predict_witness :
  exists w',
    Alert.get_active_model_path w'
    = (Returns (Some "models/alert_rf_20240101-120000.joblib"), w') /\
    Alert.predict_alert_for_twin (Sample.twin (Some 0.5%Q)) w'
    = (Returns (Alert.Prediction 1 "routine_consult"), w').
Proof.
  destruct sample_alert_run as (w' & Hrun & _).
  destruct (retrain_then_predict _ _ _ _ Hrun)
    as (Hpath & _ & (k & pipe & sp & Hk & _ & Hfit & Hpredict)).
  exists w'. split; [exact Hpath|].
  injection Hk as <-. injection Hfit as <-.
  exact (Hpredict (Sample.twin (Some 0.5%Q)) _ eq_refl).
Defined.

(** ** The food family: runs, reads and names *)

(** X11. The artifact name of a food run is made from the clock's
    second alone.  Two runs that read the same second produce two registry
    records with the same name and the same path, and the file at that
    path holds the regressor of the second run only; every other file is
    as before. *)
Theorem food_runs_in_one_second_share_a_path
    (env1 env2 : Food.TrainEnv) (w : Food.World) :
  Food.utcnow_stamp env1 = Food.utcnow_stamp env2 ->
  exists s1 w1 s2 w2,
    Food.retrain_food_model env1 w = (Returns s1, w1) /\
    Food.retrain_food_model env2 w1 = (Returns s2, w2) /\
    Food.model_path s1 = Food.model_path s2 /\
    Food.registry w2
    = (Food.set_active false <$> Food.registry w)
      ++ [Food.set_active false (Food.new_record env1); Food.new_record env2] /\
    Food.path (Food.new_record env1) = Food.path (Food.new_record env2) /\
    Food.name (Food.new_record env1) = Food.name (Food.new_record env2) /\
    Food.files w2 !! Food.model_path s2 = Some (Food.Joblib (Food.fitted env2)) /\
    (forall p, p <> Food.model_path s2 ->
       Food.files w2 !! p = Food.files w !! p).
Proof.
  intros Hstamp.
  assert (Food.model_path_of env1 = Food.model_path_of env2) as Hpath.
  { unfold Food.model_path_of. by rewrite Hstamp. }
  eexists _, _, _, _. split; [apply food_retrain_run|].
  split; [apply food_retrain_run|]. cbn.
  split; [done|]. split.
  { unfold Food.registry at 1. cbn [Food.meta_file default].
    fold (Food.registry w).
    by rewrite fmap_app, <- app_assoc, <- list_fmap_compose. }
  split; [done|]. split; [by rewrite Hpath|].
  split; [apply lookup_insert_eq|].
  intros p Hp. rewrite lookup_insert_ne by done.
  rewrite lookup_insert_ne; [done|by rewrite Hpath].
Qed.

Lemma food_runs_in_one_second_share_a_path_witness :
  exists w2,
    Food.registry w2
    = [Food.set_active false Sample.food_record; Sample.food_record] /\
    Food.files w2 !! Food.path Sample.food_record
    = Some (Food.Joblib Sample.regressor).
Proof.
  destruct (food_runs_in_one_second_share_a_path Sample.food_env
              Sample.food_env Sample.food_world eq_refl)
    as (s1 & w1 & s2 & w2 & Hrun1 & Hrun2 & _ & Hreg & _ & _ & Hfile & _).
  exists w2. split; [exact Hreg|].
  rewrite food_retrain_run in Hrun1. injection Hrun1 as <- <-.
  rewrite food_retrain_run in Hrun2. injection Hrun2 as <- <-.
  exact Hfile.
Defined.

(** X12. Food prediction with an active record whose artifact file
    exists is read-only: no training is started, and registry, files and
    tracker stay as they were.  It answers with the regressor stored in
    that file, not with one the environment could fit, and raises when the
    file is unreadable. *)
Theorem food_prediction_with_artifact_is_read_only
    (env : Food.TrainEnv) (items : list Food.MealItem) (w : Food.World)
    (m : record food) (a : Food.artifact) :
  last_active (fam := food) (Food.registry w) (Some m) ->
  Food.path m <> "" ->
  Food.files w !! Food.path m = Some a ->
  exists w',
    Food.predict_meal_nutrition env items w
    = (match a with
       | Food.Joblib model => Returns (totals_with model items)
       | Food.Corrupt => Raises (UnpicklingError (Food.path m))
       end, w') /\
    Food.registry w' = Food.registry w /\
    Food.files w' = Food.files w /\
    Food.mlflow_runs w' = Food.mlflow_runs w.
Proof.
  intros (before & after & Hsplit & Hm & Hafter) Hpath Hfile.
  pose proof (last_filter_of_split Food.active _ _ _ _ Hsplit Hm Hafter) as Hlast.
  exists (Food.ensured w).
  rewrite food_registry_ensured, food_ensured_files, food_ensured_runs.
  split; [|done]. rewrite food_predict_totals.
  rewrite (food_load_active_present env _ _ _ Hlast Hpath Hfile).
  by destruct a.
Qed.

Lemma food_prediction_with_artifact_is_read_only_witness :
  exists w',
    Food.predict_meal_nutrition Sample.food_env [Sample.unobtainium]
      Sample.corrupted_food_world
    = (Raises (UnpicklingError (Food.path Sample.food_record)), w') /\
    Food.mlflow_runs w' = [].
Proof.
  destruct (food_prediction_with_artifact_is_read_only Sample.food_env
              [Sample.unobtainium] Sample.corrupted_food_world
              Sample.food_record Food.Corrupt)
    as (w' & Hrun & _ & _ & Hruns).
  - by exists [], [].
  - discriminate.
  - reflexivity.
  - by exists w'.
Defined.

Lemma lstrip_all_space s : all_space s = true -> lstrip s = "".
Proof.
  induction s as [|c s IH]; [done|]. cbn [all_space lstrip].
  intros [Hc Hs]%andb_prop. rewrite Hc. by apply IH.
Qed.

Lemma rstrip_all_space s : all_space s = true -> rstrip s = "".
Proof.
  induction s as [|c s IH]; [done|]. cbn [all_space rstrip].
  intros [Hc Hs]%andb_prop. by rewrite (IH Hs), Hc.
Qed.

Lemma lstrip_app_space pre s : all_space pre = true -> lstrip (pre ++ s) = lstrip s.
Proof.
  induction pre as [|c pre IH]; [done|].
  cbn [all_space]. intros [Hc Hs]%andb_prop.
  change (lstrip (String c (pre ++ s)) = lstrip s).
  cbn [lstrip]. rewrite Hc. by apply IH.
Qed.

Lemma rstrip_app_space s post :
  all_space post = true -> rstrip (s ++ post) = rstrip s.
Proof.
  intros Hpost. induction s as [|c s IH].
  - by apply rstrip_all_space.
  - change (rstrip (String c (s ++ post)) = rstrip (String c s)).
    cbn [rstrip]. by rewrite IH.
Qed.

Lemma rstrip_lstrip_app_space s post :
  all_space post = true -> rstrip (lstrip (s ++ post)) = rstrip (lstrip s).
Proof.
  intros Hpost. induction s as [|c s IH].
  - change (rstrip (lstrip post) = rstrip (lstrip "")).
    by rewrite lstrip_all_space.
  - change (rstrip (lstrip (String c (s ++ post))) = rstrip (lstrip (String c s))).
    cbn [lstrip]. destruct (is_space c); [done|].
    by apply (rstrip_app_space (String c s)).
Qed.

Lemma strip_padding pre s post :
  all_space pre = true -> all_space post = true ->
  strip (pre ++ s ++ post) = strip s.
Proof.
  intros Hpre Hpost. unfold strip.
  by rewrite lstrip_app_space, rstrip_lstrip_app_space.
Qed.

(** X13. The catalog lookup ignores the case of an item's name and the
    whitespace around it: two items whose names differ only in letter case
    and in leading or trailing whitespace are looked up under the same
    name and add the same values to the totals. *)
Theorem item_name_ignores_case_and_padding
    (s s' pre post : string) (q : option Q)
    (model : Food.Regressor) (t : Food.Totals) :
  all_space pre = true -> all_space post = true ->
  lower s = lower s' ->
  let padded := {| Food.item_name := Some (pre ++ s ++ post)%string;
                   Food.quantity := q |} in
  let plain := {| Food.item_name := Some s'; Food.quantity := q |} in
  Food.raw_name padded = Food.raw_name plain /\
  Food.add_item model t padded = Food.add_item model t plain.
Proof.
  intros Hpre Hpost Hlow padded plain.
  assert (Food.raw_name padded = Food.raw_name plain) as Hname.
  { unfold Food.raw_name, padded, plain. cbn -[strip lower replace_char].
    rewrite strip_padding by done. unfold strip.
    by rewrite !lower_rstrip, !lower_lstrip, Hlow. }
  split; [done|]. unfold Food.add_item. by rewrite Hname.
Qed.

Lemma item_name_ignores_case_and_padding_witness :
  Food.raw_name {| Food.item_name := Some "  Aloo Paratha ";
                   Food.quantity := None |}
  = Food.raw_name {| Food.item_name := Some "ALOO PARATHA";
                     Food.quantity := None |}.
Proof.
  apply (item_name_ignores_case_and_padding "Aloo Paratha" "ALOO PARATHA"
           "  " " " None Sample.regressor Food.zero_totals);
    reflexivity.
Defined.

(** X14. Through the operations facade, retraining promotes what it
    reports: afterwards the status reports the path of the summary and the
    listing is the old records, deactivated, followed by the new record.
    The status reads the registry only: it reports the active path also
    when no file exists at that path. *)
Theorem mlops_retrain_then_status (env : Food.TrainEnv) (w : Food.World) :
  exists s w',
    Mlops.retrain_food_mlops env w = (Returns s, w') /\
    Mlops.active_food_model w'
    = (Returns {| Mlops.active_food_model_path := Some (Food.model_path s) |},
       w') /\
    Mlops.list_food_models w'
    = (Returns ((Food.set_active false <$> Food.registry w)
                ++ [Food.new_record env]), w') /\
    forall gone : gmap string Food.artifact,
      let w'' := {| Food.meta_file := Food.meta_file w'; Food.files := gone;
                    Food.mlflow_runs := Food.mlflow_runs w' |} in
      Mlops.active_food_model w''
      = (Returns {| Mlops.active_food_model_path := Some (Food.model_path s) |},
         w'').
Proof.
  eexists _, _. split; [apply food_retrain_run|].
  cbn [Food.model_path Food.meta_file Food.mlflow_runs Food.files].
  set (reg := (Food.set_active false <$> Food.registry w) ++ [Food.new_record env]).
  assert (forall fs rs,
            Mlops.active_food_model
              {| Food.meta_file := Some reg; Food.files := fs;
                 Food.mlflow_runs := rs |}
            = (Returns {| Mlops.active_food_model_path :=
                            Some (Food.model_path_of env) |},
               {| Food.meta_file := Some reg; Food.files := fs;
                  Food.mlflow_runs := rs |})) as Hstatus.
  { intros fs rs. unfold Mlops.active_food_model.
    rewrite (bind_run _ _ _ _ _ (food_active_path _)).
    assert (last (List.filter Food.active reg) = Some (Food.new_record env))
      as Hlast.
    { exact (f_equal last
               (promoted_filter (fam := food) (Food.registry w)
                  (Food.new_record env) eq_refl)). }
    change (Food.registry {| Food.meta_file := Some reg; Food.files := fs;
                             Food.mlflow_runs := rs |}) with reg.
    by rewrite Hlast. }
  split; [apply Hstatus|]. split; [|intros gone; apply Hstatus].
  unfold Mlops.list_food_models, Food.get_registered_food_models.
  by rewrite food_load_meta.
Qed.

(** ** The meal service *)

Lemma measured_guard t :
  measured t ->
  Qeq_bool (Alert.height_cm t) 0 || Qeq_bool (Alert.weight_kg t) 0
  || Qeq_bool (Alert.age t) 0 = false.
Proof.
  intros (Hh & Hw & Ha).
  assert (forall x, ~ (x == 0)%Q -> Qeq_bool x 0 = false) as Hneq.
  { intros x Hx. destruct (Qeq_bool x 0) eqn:E; [|done].
    by apply Qeq_bool_iff in E. }
  by rewrite (Hneq _ Hh), (Hneq _ Hw), (Hneq _ Ha).
Qed.

(** X15. The calorie estimate falls back to 2000.0 whenever height,
    weight or age is zero, whatever the other columns hold, also without
    a gender.  With the three measurements present, a twin without gender
    makes it raise an attribute error, where the feature encoder accepts
    the same twin and codes its gender 0. *)
Theorem estimate_fallback_and_missing_gender
    (env : Service.Env) (t : Alert.Twin) :
  ((Alert.height_cm t == 0)%Q \/ (Alert.weight_kg t == 0)%Q
   \/ (Alert.age t == 0)%Q ->
   Service._estimate_required_calories env t = Service.Ok 2000%Q) /\
  (measured t -> Alert.gender t = None ->
   Service._estimate_required_calories env t
   = Service.Fail
       (Service.AttributeError "'NoneType' object has no attribute 'lower'") /\
   Alert._encode_gender (Alert.gender t) = 0%Q).
Proof.
  unfold Service._estimate_required_calories. split.
  - intros Hzero.
    assert (Qeq_bool (Alert.height_cm t) 0 || Qeq_bool (Alert.weight_kg t) 0
            || Qeq_bool (Alert.age t) 0 = true) as ->; [|done].
    destruct Hzero as [H|[H|H]]; apply Qeq_bool_iff in H; rewrite H;
      by rewrite ?orb_true_r.
  - intros Hm Hg. rewrite (measured_guard _ Hm), Hg. done.
Qed.

Lemma estimate_fallback_and_missing_gender_witness :
  Service._estimate_required_calories Sample.service_env
    Sample.twin_without_gender
  = Service.Fail
      (Service.AttributeError "'NoneType' object has no attribute 'lower'") /\
  Alert._encode_gender (Alert.gender Sample.twin_without_gender) = 0%Q.
Proof.
  apply (proj2 (estimate_fallback_and_missing_gender Sample.service_env
                  Sample.twin_without_gender)); [|reflexivity].
  repeat split; intros H; discriminate H.
Defined.

(** X16. The activity factor 1.2 of exercise level 0 is never applied:
    the level is read as [exercise_level or 1], which turns level 0 into
    level 1.  Two twins that agree on height, weight, age and gender, one
    with exercise level 0 or none and the other with level 1, get the same
    estimate. *)
Theorem estimate_reads_level_zero_as_one
    (env : Service.Env) (t t' : Alert.Twin) :
  Alert.height_cm t = Alert.height_cm t' ->
  Alert.weight_kg t = Alert.weight_kg t' ->
  Alert.age t = Alert.age t' ->
  Alert.gender t = Alert.gender t' ->
  falsy_score (Alert.exercise_level t) ->
  Alert.exercise_level t' = Some 1%Q ->
  Service._estimate_required_calories env t
  = Service._estimate_required_calories env t'.
Proof.
  intros Hh Hw Ha Hg Hzero Hone.
  unfold Service._estimate_required_calories.
  rewrite Hh, Hw, Ha, Hg, Hone, (or_default_falsy _ 1%Q Hzero). done.
Qed.

Lemma estimate_reads_level_zero_as_one_witness :
  Service._estimate_required_calories Sample.service_env (Sample.twin None)
  = Service._estimate_required_calories Sample.service_env
      Sample.twin_level_one /\
  Service._estimate_required_calories Sample.service_env
    Sample.twin_level_one = Service.Ok (35585 # 16)%Q.
Proof.
  split; [|reflexivity].
  apply estimate_reads_level_zero_as_one; try reflexivity.
  right. by exists 0%Q.
Defined.

Section Rows.
Import Service.

Lemma find_app_first {A} (f : A -> bool) (l1 l2 : list A) :
  List.find f (l1 ++ l2)
  = match List.find f l1 with
    | Some x => Some x
    | None => List.find f l2
    end.
Proof.
  induction l1 as [|x l1 IH]; [done|]. cbn. by destruct (f x).
Qed.

Lemma find_none_snoc {A} (f : A -> bool) (l : list A) x :
  List.find f l = None -> f x = true -> List.find f (l ++ [x]) = Some x.
Proof. intros Hl Hx. rewrite find_app_first, Hl. cbn. by rewrite Hx. Qed.

Lemma find_some_matches {A} (f : A -> bool) (l : list A) x :
  List.find f l = Some x -> f x = true.
Proof. intros H. by apply find_some in H as [_ ?]. Qed.

Lemma existsb_find {A} (f : A -> bool) (l : list A) :
  existsb f l = bool_decide (is_Some (List.find f l)).
Proof.
  induction l as [|x l IH]; [done|]. cbn. destruct (f x); [|done].
  symmetry. by apply bool_decide_eq_true_2.
Qed.

Lemma find_replace_first twin_id day d' rows d0 :
  List.find (daily_matches twin_id day) rows = Some d0 ->
  daily_matches twin_id day d' = true ->
  List.find (daily_matches twin_id day) (replace_first twin_id day d' rows)
  = Some d'.
Proof.
  intros Hfind Hd'. induction rows as [|d rows IH]; [done|].
  cbn in *. destruct (daily_matches twin_id day d) eqn:Hd; cbn.
  - by rewrite Hd'.
  - rewrite Hd. by apply IH.
Qed.

Lemma replace_first_none twin_id day d' rows :
  List.find (daily_matches twin_id day) rows = None ->
  replace_first twin_id day d' rows = rows.
Proof.
  induction rows as [|d rows IH]; [done|]. cbn.
  destruct (daily_matches twin_id day d); [done|].
  intros H. by rewrite IH.
Qed.

Lemma length_replace_first twin_id day d' rows :
  length (replace_first twin_id day d' rows) = length rows.
Proof.
  induction rows as [|d rows IH]; [done|]. cbn.
  destruct (daily_matches twin_id day d); cbn; by rewrite ?IH.
Qed.

(** Replacing the found row by one with the same key keeps, for every
    key, the number of rows under it. *)
Lemma filter_replace_first twin_id day d' rows d0 k_id k_day :
  List.find (daily_matches twin_id day) rows = Some d0 ->
  DailyCalorieSummary.twin_id d' = DailyCalorieSummary.twin_id d0 ->
  DailyCalorieSummary.date d' = DailyCalorieSummary.date d0 ->
  length (List.filter (daily_matches k_id k_day)
            (replace_first twin_id day d' rows))
  = length (List.filter (daily_matches k_id k_day) rows).
Proof.
  intros Hfind Hid Hdate. induction rows as [|d rows IH]; [done|].
  cbn in *. destruct (daily_matches twin_id day d) eqn:Hd.
  - injection Hfind as ->. cbn [List.filter].
    assert (daily_matches k_id k_day d' = daily_matches k_id k_day d0) as ->.
    { unfold daily_matches. by rewrite Hid, Hdate. }
    by destruct (daily_matches k_id k_day d0).
  - cbn. destruct (daily_matches k_id k_day d); cbn; by rewrite IH.
Qed.

Lemma daily_matches_key twin_id day d :
  DailyCalorieSummary.twin_id d = twin_id ->
  DailyCalorieSummary.date d = day ->
  daily_matches twin_id day d = true.
Proof.
  intros <- <-. unfold daily_matches.
  by rewrite Z.eqb_refl, String.eqb_refl.
Qed.

Lemma daily_matches_inv twin_id day d :
  daily_matches twin_id day d = true ->
  DailyCalorieSummary.twin_id d = twin_id /\
  DailyCalorieSummary.date d = day.
Proof.
  unfold daily_matches. intros [Hid Hday]%andb_prop.
  by apply Z.eqb_eq in Hid; apply String.eqb_eq in Hday.
Qed.

Lemma replace_first_app twin_id day d' l1 l2 :
  replace_first twin_id day d' (l1 ++ l2)
  = match List.find (daily_matches twin_id day) l1 with
    | Some _ => replace_first twin_id day d' l1 ++ l2
    | None => l1 ++ replace_first twin_id day d' l2
    end.
Proof.
  induction l1 as [|r l1 IH]; [done|]. cbn.
  destruct (daily_matches twin_id day r); [done|].
  rewrite IH. by destruct (List.find _ l1).
Qed.

(** The summaries seen after the update of the found row and a commit. *)
Lemma summaries_update s twin_id day d' :
  summaries (commit (update_daily s twin_id day d'))
  = replace_first twin_id day d' (summaries s).
Proof.
  unfold summaries, update_daily, commit.
  rewrite replace_first_app, existsb_find.
  destruct (List.find _ (daily_calorie_summary s)) as [d|] eqn:Hc.
  - rewrite bool_decide_eq_true_2 by by eexists. cbn. by rewrite app_nil_r.
  - rewrite bool_decide_eq_false_2 by by intros [? [=]]. cbn.
    by rewrite app_nil_r.
Qed.

Lemma summaries_add s d :
  summaries (commit (add_daily s d)) = summaries s ++ [d].
Proof.
  unfold summaries, commit, add_daily. cbn.
  by rewrite app_nil_r, app_assoc.
Qed.

Lemma summaries_add_meal s m : summaries (add_meal s m) = summaries s.
Proof. done. Qed.

Lemma update_daily_meals s twin_id day d' :
  meal_logs (update_daily s twin_id day d') = meal_logs s /\
  new_meal_logs (update_daily s twin_id day d') = new_meal_logs s /\
  twins (update_daily s twin_id day d') = twins s.
Proof. unfold update_daily. by destruct (existsb _ _). Qed.
End Rows.

(** X17. A call of [log_meal] that fails commits nothing: the three
    tables are as before.  When the twin is unknown the whole world is
    unchanged, and no prediction was made.  When the food model raises,
    the session is unchanged.  When the calorie estimate raises, the meal
    has already been added to the session and stays there, uncommitted. *)
Theorem failed_log_meal_commits_nothing
    (env : Service.Env) (twin_id : Z) (meal_type : string)
    (items : list Food.MealItem) (w : Service.World)
    (e : Service.error) (w' : Service.World) :
  Service.log_meal env twin_id meal_type items w = (Service.Fail e, w') ->
  committed (Service.db w') = committed (Service.db w) /\
  Service.new_daily_calorie_summary (Service.db w')
  = Service.new_daily_calorie_summary (Service.db w) /\
  match e with
  | Service.ValueError _ =>
      w' = w /\ Service.first_twin (Service.db w) twin_id = None
  | Service.FromModel e0 =>
      Service.db w' = Service.db w /\
      Food.predict_meal_nutrition (Service.food_env env) items (Service.food w)
      = (Raises e0, Service.food w')
  | Service.AttributeError _ =>
      Service.first_daily (Service.db w) twin_id (Service.today env) = None /\
      exists meal,
        Service.new_meal_logs (Service.db w')
        = Service.new_meal_logs (Service.db w) ++ [meal] /\
        Service.MealLog.twin_id meal = twin_id /\
        Service.MealLog.meal_type meal = meal_type
  end.
Proof.
  unfold Service.log_meal.
  destruct (Service.first_twin (Service.db w) twin_id) as [twin|] eqn:Htwin.
  2:{ by intros [= <- <-]. }
  destruct (Food.predict_meal_nutrition _ items (Service.food w))
    as [[nutrition|e0] fw] eqn:Hpredict.
  2:{ by intros [= <- <-]. }
  cbv zeta.
  destruct (Service.first_daily _ twin_id (Service.today env)) as [d|] eqn:Hd;
    [done|].
  destruct (Service._estimate_required_calories env twin) as [r|e1] eqn:Hest;
    [done|].
  intros [= <- <-]. cbn. split; [done|]. split; [done|].
  revert Hest. unfold Service._estimate_required_calories.
  destruct (_ || _); [done|]. destruct (Alert.gender twin); [done|].
  intros [= <-]. split; [done|]. by eexists.
Qed.

Lemma sample_log_meal_without_gender :
  exists w',
    Service.log_meal Sample.service_env 7 "breakfast"
      [Sample.idli (Some 2%Q)]
      (Sample.service_world Sample.twin_without_gender)
    = (Service.Fail
         (Service.AttributeError "'NoneType' object has no attribute 'lower'"),
       w') /\
    length (Service.new_meal_logs (Service.db w')) = 1%nat /\
    Food.mlflow_runs (Service.food w') = ["food_calorie_model"].
Proof. eexists. repeat split; vm_compute; reflexivity. Qed.

Lemma failed_log_meal_commits_nothing_witness :
  exists w',
    Service.log_meal Sample.service_env 7 "breakfast"
      [Sample.idli (Some 2%Q)]
      (Sample.service_world Sample.twin_without_gender)
    = (Service.Fail
         (Service.AttributeError "'NoneType' object has no attribute 'lower'"),
       w') /\
    Service.meal_logs (Service.db w') = [] /\
    length (Service.new_meal_logs (Service.db w')) = 1%nat.
Proof.
  destruct sample_log_meal_without_gender as (w' & Hrun & Hnew & _).
  exists w'. split; [exact Hrun|]. split; [|exact Hnew].
  destruct (failed_log_meal_commits_nothing _ _ _ _ _ _ _ Hrun)
    as (Hcommitted & _).
  by injection Hcommitted as _ -> _.
Defined.

(** X18. A call of [log_meal] that returns has committed the session: the
    meal, carrying the predicted totals, is the last row of [meal_logs],
    and nothing is left pending.  The returned summary is the one a query
    for the twin and the day now finds, and its balance is its total minus
    its requirement.  If the day had a summary, that row keeps its id and
    its requirement and its total has grown by the meal's calories, and
    no row is added; otherwise a row is added whose total is the meal's
    calories and whose requirement is the twin's estimate. *)
Theorem log_meal_records_meal_and_day
    (env : Service.Env) (twin_id : Z) (meal_type : string)
    (items : list Food.MealItem) (w : Service.World)
    (meal : Service.MealLog.t) (daily : Service.DailyCalorieSummary.t)
    (w' : Service.World) :
  Service.log_meal env twin_id meal_type items w
    = (Service.Ok (meal, daily), w') ->
  (exists nutrition,
     Food.predict_meal_nutrition (Service.food_env env) items (Service.food w)
     = (Returns nutrition, Service.food w') /\
     Service.MealLog.calories meal = Food.calories nutrition /\
     Service.MealLog.protein meal = Food.protein nutrition /\
     Service.MealLog.carbs meal = Food.carbs nutrition /\
     Service.MealLog.fat meal = Food.fat nutrition) /\
  Service.MealLog.food_json meal = items /\
  Service.meal_logs (Service.db w')
  = Service.meal_logs (Service.db w)
    ++ Service.new_meal_logs (Service.db w) ++ [meal] /\
  Service.new_meal_logs (Service.db w') = [] /\
  Service.new_daily_calorie_summary (Service.db w') = [] /\
  Service.first_daily (Service.db w') twin_id (Service.today env)
  = Some daily /\
  Service.DailyCalorieSummary.calorie_balance daily
  = Service.round env
      (Service.DailyCalorieSummary.total_calories daily
       - Service.DailyCalorieSummary.required_calories daily)%Q /\
  match Service.first_daily (Service.db w) twin_id (Service.today env) with
  | Some before =>
      Service.DailyCalorieSummary.id daily
      = Service.DailyCalorieSummary.id before /\
      Service.DailyCalorieSummary.required_calories daily
      = Service.DailyCalorieSummary.required_calories before /\
      Service.DailyCalorieSummary.total_calories daily
      = Service.round env
          (Service.DailyCalorieSummary.total_calories before
           + Service.MealLog.calories meal)%Q /\
      length (summaries (Service.db w')) = length (summaries (Service.db w))
  | None =>
      Service.DailyCalorieSummary.total_calories daily
      = Service.MealLog.calories meal /\
      (exists twin,
         Service.first_twin (Service.db w) twin_id = Some twin /\
         Service._estimate_required_calories env twin
         = Service.Ok (Service.DailyCalorieSummary.required_calories daily)) /\
      summaries (Service.db w') = summaries (Service.db w) ++ [daily]
  end.
Proof.
  unfold Service.log_meal.
  destruct (Service.first_twin (Service.db w) twin_id) as [twin|] eqn:Htwin;
    [|done].
  destruct (Food.predict_meal_nutrition _ items (Service.food w))
    as [[nutrition|e0] fw] eqn:Hpredict; [|done].
  cbv zeta.
  set (m := {| Service.MealLog.id := Service.meal_id env |}).
  change (Service.first_daily (Service.add_meal (Service.db w) m) twin_id
            (Service.today env))
    with (Service.first_daily (Service.db w) twin_id (Service.today env)).
  destruct (Service.first_daily (Service.db w) twin_id (Service.today env))
    as [before|] eqn:Hbefore.
  - intros [= <- <- <-]. cbn [Service.food Service.db].
    set (d' := {| Service.DailyCalorieSummary.id :=
                    Service.DailyCalorieSummary.id before |}).
    split; [by exists nutrition|]. split; [done|].
    split.
    { cbn [Service.commit Service.meal_logs].
      destruct (update_daily_meals (Service.add_meal (Service.db w) m)
                  twin_id (Service.today env) d') as (-> & -> & _).
      cbn. by rewrite app_assoc. }
    split; [done|]. split; [done|].
    pose proof (find_some_matches _ _ _ Hbefore) as Hkey.
    apply daily_matches_inv in Hkey as [Hid Hday].
    split; [|split; [done|]].
    + change (List.find (Service.daily_matches twin_id (Service.today env))
                (summaries (Service.commit
                   (Service.update_daily (Service.add_meal (Service.db w) m)
                      twin_id (Service.today env) d')))
              = Some d').
      rewrite summaries_update. eapply find_replace_first; [exact Hbefore|].
      by apply daily_matches_key.
    + repeat split. rewrite summaries_update.
      apply length_replace_first.
  - destruct (Service._estimate_required_calories env twin) as [r|e1] eqn:Hest;
      [|done].
    intros [= <- <- <-]. cbn [Service.food Service.db].
    set (d' := {| Service.DailyCalorieSummary.id := Service.daily_id env |}).
    split; [by exists nutrition|]. split; [done|].
    split; [cbn; by rewrite app_assoc|].
    split; [done|]. split; [done|]. split; [|split; [done|]].
    + change (List.find (Service.daily_matches twin_id (Service.today env))
                (summaries (Service.commit
                   (Service.add_daily (Service.add_meal (Service.db w) m) d')))
              = Some d').
      rewrite summaries_add. apply find_none_snoc; [exact Hbefore|].
      by apply daily_matches_key.
    + split; [done|]. split; [by exists twin|]. by rewrite summaries_add.
Qed.

Lemma sample_log_meal :
  exists meal daily w',
    Service.log_meal Sample.service_env 7 "breakfast"
      [Sample.idli (Some 2%Q)] (Sample.service_world (Sample.twin None))
    = (Service.Ok (meal, daily), w') /\
    Service.MealLog.calories meal = (0 + 70 * 2)%Q /\
    Service.DailyCalorieSummary.required_calories daily = (35585 # 16)%Q /\
    Service.first_daily
      (Service.db (Sample.service_world (Sample.twin None))) 7
      (Service.today Sample.service_env) = None.
Proof. eexists _, _, _. repeat split; vm_compute; reflexivity. Qed.

Lemma log_meal_records_meal_and_day_witness :
  exists meal daily w',
    Service.log_meal Sample.service_env 7 "breakfast"
      [Sample.idli (Some 2%Q)] (Sample.service_world (Sample.twin None))
    = (Service.Ok (meal, daily), w') /\
    Service.meal_logs (Service.db w') = [meal] /\
    Service.first_daily (Service.db w') 7 (Service.today Sample.service_env)
    = Some daily /\
    Service.DailyCalorieSummary.total_calories daily
    = Service.MealLog.calories meal.
Proof.
  destruct sample_log_meal as (meal & daily & w' & Hrun & _ & _ & Hnone).
  exists meal, daily, w'. split; [exact Hrun|].
  destruct (log_meal_records_meal_and_day _ _ _ _ _ _ _ _ Hrun)
    as (_ & _ & Hmeals & _ & _ & Hfound & _ & Hday).
  split; [exact Hmeals|]. split; [exact Hfound|].
  rewrite Hnone in Hday. exact (proj1 Hday).
Defined.

(** X19. [get_daily_summary] returns the day's summary when there is
    one and then changes nothing.  Otherwise it commits a baseline row of
    total 0.0 whose balance is the negated requirement, and with it
    whatever meals were pending in the session.  In both cases a later
    call on the same day returns the same row and changes nothing, and
    the food registry is never touched. *)
Theorem get_daily_summary_is_stable
    (env : Service.Env) (twin_id : Z) (w : Service.World)
    (daily : Service.DailyCalorieSummary.t) (w' : Service.World) :
  Service.get_daily_summary env twin_id w = (Service.Ok daily, w') ->
  Service.food w' = Service.food w /\
  (forall env', Service.today env' = Service.today env ->
     Service.get_daily_summary env' twin_id w' = (Service.Ok daily, w')) /\
  match Service.first_daily (Service.db w) twin_id (Service.today env) with
  | Some before => daily = before /\ w' = w
  | None =>
      Service.DailyCalorieSummary.total_calories daily = 0%Q /\
      Service.DailyCalorieSummary.calorie_balance daily
      = (- Service.DailyCalorieSummary.required_calories daily)%Q /\
      summaries (Service.db w') = summaries (Service.db w) ++ [daily] /\
      Service.meal_logs (Service.db w')
      = Service.meal_logs (Service.db w)
        ++ Service.new_meal_logs (Service.db w) /\
      Service.new_meal_logs (Service.db w') = []
  end.
Proof.
  unfold Service.get_daily_summary at 1. cbv zeta.
  destruct (Service.first_daily (Service.db w) twin_id (Service.today env))
    as [before|] eqn:Hbefore.
  - intros [= <- <-]. split; [done|]. split; [|done].
    intros env' Htoday. unfold Service.get_daily_summary.
    by rewrite Htoday, Hbefore.
  - destruct (Service.first_twin (Service.db w) twin_id) as [twin|]; [|done].
    destruct (Service._estimate_required_calories env twin) as [r|e]; [|done].
    intros [= <- <-]. cbn [Service.food Service.db].
    set (d := {| Service.DailyCalorieSummary.id := Service.daily_id env |}).
    assert (Service.first_daily (Service.commit (Service.add_daily (Service.db w) d))
              twin_id (Service.today env) = Some d) as Hfound.
    { change (List.find (Service.daily_matches twin_id (Service.today env))
                (summaries (Service.commit (Service.add_daily (Service.db w) d)))
              = Some d).
      rewrite summaries_add. apply find_none_snoc; [exact Hbefore|].
      by apply daily_matches_key. }
    split; [done|]. split.
    + intros env' Htoday. unfold Service.get_daily_summary.
      cbn [Service.db]. by rewrite Htoday, Hfound.
    + repeat split. by rewrite summaries_add.
Qed.

Lemma get_daily_summary_is_stable_witness :
  exists daily w',
    Service.get_daily_summary Sample.service_env 7
      (Sample.service_world Sample.twin_level_one) = (Service.Ok daily, w') /\
    Service.get_daily_summary Sample.service_env 7 w' = (Service.Ok daily, w') /\
    Service.DailyCalorieSummary.calorie_balance daily = (- (35585 # 16))%Q.
Proof.
  eexists _, _. split; [reflexivity|].
  split.
  - refine (proj1 (proj2 (get_daily_summary_is_stable Sample.service_env 7
                     (Sample.service_world Sample.twin_level_one) _ _ eq_refl))
              Sample.service_env eq_refl).
  - reflexivity.
Defined.

(** X20. After a call of [log_meal] that returns, reading the day's
    summary gives back the summary that [log_meal] returned, and the read
    changes nothing. *)
Theorem log_meal_then_get_daily_summary
    (env env' : Service.Env) (twin_id : Z) (meal_type : string)
    (items : list Food.MealItem) (w : Service.World)
    (meal : Service.MealLog.t) (daily : Service.DailyCalorieSummary.t)
    (w' : Service.World) :
  Service.log_meal env twin_id meal_type items w
    = (Service.Ok (meal, daily), w') ->
  Service.today env' = Service.today env ->
  Service.get_daily_summary env' twin_id w' = (Service.Ok daily, w').
Proof.
  intros Hrun Htoday.
  destruct (log_meal_records_meal_and_day _ _ _ _ _ _ _ _ Hrun)
    as (_ & _ & _ & _ & _ & Hfound & _).
  unfold Service.get_daily_summary. by rewrite Htoday, Hfound.
Qed.

Lemma log_meal_then_get_daily_summary_witness :
  exists meal daily w',
    Service.log_meal Sample.service_env 7 "breakfast"
      [Sample.idli (Some 2%Q)] (Sample.service_world (Sample.twin None))
    = (Service.Ok (meal, daily), w') /\
    Service.get_daily_summary Sample.service_env 7 w' = (Service.Ok daily, w').
Proof.
  destruct sample_log_meal as (meal & daily & w' & Hrun & _).
  exists meal, daily, w'. split; [exact Hrun|].
  exact (log_meal_then_get_daily_summary _ Sample.service_env _ _ _ _ _ _ _
           Hrun eq_refl).
Defined.

Lemma filter_find_none {A} (f : A -> bool) (l : list A) :
  List.find f l = None -> List.filter f l = [].
Proof.
  induction l as [|x l IH]; [done|]. cbn. destruct (f x); [done|]. exact IH.
Qed.

Lemma one_summary_per_day_add s d :
  one_summary_per_day s ->
  Service.first_daily s (Service.DailyCalorieSummary.twin_id d)
    (Service.DailyCalorieSummary.date d) = None ->
  one_summary_per_day (Service.commit (Service.add_daily s d)).
Proof.
  intros Hinv Hnone k_id k_day. rewrite summaries_add, List.filter_app.
  rewrite length_app. cbn.
  destruct (Service.daily_matches k_id k_day d) eqn:Hd.
  - apply daily_matches_inv in Hd as [<- <-].
    change (Service.first_daily s _ _)
      with (List.find (Service.daily_matches (Service.DailyCalorieSummary.twin_id d)
                         (Service.DailyCalorieSummary.date d)) (summaries s))
      in Hnone.
    by rewrite (filter_find_none _ _ Hnone).
  - cbn. specialize (Hinv k_id k_day). lia.
Qed.

(** X21. The service keeps the summaries unique: if no twin has two
    summaries for one day, this still holds after [log_meal] and after
    [get_daily_summary], whether the call returns or fails. *)
Theorem service_keeps_one_summary_per_day
    (env : Service.Env) (twin_id : Z) (meal_type : string)
    (items : list Food.MealItem) (w : Service.World) :
  one_summary_per_day (Service.db w) ->
  one_summary_per_day
    (Service.db (Service.log_meal env twin_id meal_type items w).2) /\
  one_summary_per_day
    (Service.db (Service.get_daily_summary env twin_id w).2).
Proof.
  intros Hinv. split.
  - unfold Service.log_meal.
    destruct (Service.first_twin (Service.db w) twin_id) as [twin|]; [|done].
    destruct (Food.predict_meal_nutrition _ items (Service.food w))
      as [[nutrition|e0] fw]; [|done].
    cbv zeta.
    set (m := {| Service.MealLog.id := Service.meal_id env |}).
    change (Service.first_daily (Service.add_meal (Service.db w) m) twin_id
              (Service.today env))
      with (Service.first_daily (Service.db w) twin_id (Service.today env)).
    destruct (Service.first_daily (Service.db w) twin_id (Service.today env))
      as [before|] eqn:Hbefore.
    + cbn [snd Service.db]. intros k_id k_day.
      rewrite summaries_update.
      rewrite (filter_replace_first _ _ _ _ before); [apply Hinv|done..].
    + destruct (Service._estimate_required_calories env twin) as [r|e1];
        [|exact Hinv].
      cbn [snd Service.db]. by apply one_summary_per_day_add.
  - unfold Service.get_daily_summary. cbv zeta.
    destruct (Service.first_daily (Service.db w) twin_id (Service.today env))
      as [before|] eqn:Hbefore; [done|].
    destruct (Service.first_twin (Service.db w) twin_id) as [twin|]; [|done].
    destruct (Service._estimate_required_calories env twin) as [r|e1];
      [|exact Hinv].
    cbn [snd Service.db]. by apply one_summary_per_day_add.
Qed.

Lemma service_keeps_one_summary_per_day_witness :
  one_summary_per_day
    (Service.db
       (Service.log_meal Sample.service_env 7 "breakfast"
          [Sample.idli (Some 2%Q)]
          (Sample.service_world (Sample.twin None))).2).
Proof.
  apply (service_keeps_one_summary_per_day Sample.service_env 7 "breakfast"
           [Sample.idli (Some 2%Q)] (Sample.service_world (Sample.twin None))).
  intros k_id k_day. cbn. lia.
Defined.
